(** * A shallow embedding of PRoot's src/execve/elf.c

    The file is modelled at the level of the C code: bytes are [Z] values in
    [0, 256), the C integer types are [Z] with their wrap-around written out,
    and the operating system (open, read, lseek, close, errno), the talloc
    allocator and uninitialised memory are an explicit [world] that every
    function threads. *)

From Stdlib Require Import ZArith List Bool String Ascii Lia.
Import ListNotations.
Open Scope Z_scope.

(** ** C integer conversions *)

Definition two64 : Z := 2 ^ 64.
Definition UINT64_MAX : Z := two64 - 1.

(** [uint64_t] arithmetic. *)
Definition to_u64 (x : Z) : Z := x mod two64.

(** Conversion of a 64-bit value to a signed 64-bit type ([off_t]). *)
Definition to_s64 (x : Z) : Z :=
  let y := x mod two64 in if y <? 2 ^ 63 then y else y - two64.

(** The [(int)] cast applied to an [off_t] (GCC: reduction modulo 2^32). *)
Definition to_s32 (x : Z) : Z :=
  let y := x mod 2 ^ 32 in if y <? 2 ^ 31 then y else y - 2 ^ 32.

(** ** errno values (Linux) *)

Definition EPERM : Z := 1.
Definition ENOENT : Z := 2.
Definition EIO : Z := 5.
Definition ENOEXEC : Z := 8.
Definition EBADF : Z := 9.
Definition ENOMEM : Z := 12.
Definition EINVAL : Z := 22.
Definition ENOTSUP : Z := 95.

(** ** The operating system and the allocator *)

(** A regular file: its size, its bytes, and the offsets whose reading
    fails with an I/O error (a media error). *)
Record file := mkFile {
  f_size : Z;
  f_byte : Z -> Z;
  f_bad : Z -> bool
}.

(** An open file description: the file and the current file offset. *)
Record ofd := mkOfd { o_file : file; o_pos : Z }.

(** What [open(2)] finds at a path: a readable file, or a refusal
    carrying its errno (e.g. [EACCES]). *)
Inductive node := NFile (f : file) | NErr (e : Z).

(** The two accumulators [char **rpaths] and [char **runpaths] the caller
    of [read_ldso_rpaths] passes: the cells an [add_xpaths] call writes. *)
Inductive cell := Rpaths | Runpaths.

(** A talloc string: the block (its identity) and its NUL-free contents;
    [None] is the NULL pointer. *)
Definition xstring := option (nat * list Z).

Record world := mkWorld {
  w_fs : string -> option node;
  w_fds : list (Z * ofd);
  w_errno : Z;
  w_junk : nat -> Z;        (** contents of uninitialised memory *)
  w_jpos : nat;
  w_oom : nat -> bool;      (** which allocation attempts fail *)
  w_nalloc : nat;
  w_rpaths : xstring;
  w_runpaths : xstring;
  w_env_force : bool;       (** is PROOT_FORCE_FOREIGN_BINARY set *)
  w_force_foreign : Z       (** the [static int force_foreign] of is_host_elf *)
}.

Definition set_fds (w : world) (l : list (Z * ofd)) : world :=
  mkWorld (w_fs w) l (w_errno w) (w_junk w) (w_jpos w) (w_oom w) (w_nalloc w)
    (w_rpaths w) (w_runpaths w) (w_env_force w) (w_force_foreign w).

Definition set_errno (w : world) (e : Z) : world :=
  mkWorld (w_fs w) (w_fds w) e (w_junk w) (w_jpos w) (w_oom w) (w_nalloc w)
    (w_rpaths w) (w_runpaths w) (w_env_force w) (w_force_foreign w).

Definition set_jpos (w : world) (n : nat) : world :=
  mkWorld (w_fs w) (w_fds w) (w_errno w) (w_junk w) n (w_oom w) (w_nalloc w)
    (w_rpaths w) (w_runpaths w) (w_env_force w) (w_force_foreign w).

Definition set_nalloc (w : world) (n : nat) : world :=
  mkWorld (w_fs w) (w_fds w) (w_errno w) (w_junk w) (w_jpos w) (w_oom w) n
    (w_rpaths w) (w_runpaths w) (w_env_force w) (w_force_foreign w).

Definition set_cell (w : world) (c : cell) (x : xstring) : world :=
  match c with
  | Rpaths =>
      mkWorld (w_fs w) (w_fds w) (w_errno w) (w_junk w) (w_jpos w) (w_oom w)
        (w_nalloc w) x (w_runpaths w) (w_env_force w) (w_force_foreign w)
  | Runpaths =>
      mkWorld (w_fs w) (w_fds w) (w_errno w) (w_junk w) (w_jpos w) (w_oom w)
        (w_nalloc w) (w_rpaths w) x (w_env_force w) (w_force_foreign w)
  end.

Definition get_cell (w : world) (c : cell) : xstring :=
  match c with Rpaths => w_rpaths w | Runpaths => w_runpaths w end.

Definition set_force_foreign (w : world) (v : Z) : world :=
  mkWorld (w_fs w) (w_fds w) (w_errno w) (w_junk w) (w_jpos w) (w_oom w)
    (w_nalloc w) (w_rpaths w) (w_runpaths w) (w_env_force w) v.

(** The descriptor table. *)
Fixpoint fd_lookup (fd : Z) (l : list (Z * ofd)) : option ofd :=
  match l with
  | [] => None
  | (k, o) :: l' => if k =? fd then Some o else fd_lookup fd l'
  end.

Fixpoint fd_set (fd : Z) (o : ofd) (l : list (Z * ofd)) : list (Z * ofd) :=
  match l with
  | [] => [(fd, o)]
  | (k, o') :: l' => if k =? fd then (k, o) :: l' else (k, o') :: fd_set fd o l'
  end.

Definition fd_del (fd : Z) (l : list (Z * ofd)) : list (Z * ofd) :=
  filter (fun p => negb (fst p =? fd)) l.

(** A descriptor above every open one. *)
Definition fd_above (l : list (Z * ofd)) : Z :=
  1 + fold_right (fun p m => Z.max (fst p) m) 0 l.

(** [open(2)] returns the lowest-numbered descriptor not open (one of the
    [List.length l + 1] first ones is free). *)
Fixpoint lowest_free_from (n : nat) (start : Z) (l : list (Z * ofd)) : Z :=
  match n with
  | O => Z.max start (fd_above l)
  | S n' =>
      match fd_lookup start l with
      | None => start
      | Some _ => lowest_free_from n' (start + 1) l
      end
  end.

Definition lowest_free (l : list (Z * ofd)) : Z :=
  lowest_free_from (S (List.length l)) 0 l.

(** Uninitialised memory: [n] fresh bytes of unspecified contents. *)
Definition fresh (n : nat) (w : world) : list Z * world :=
  (map (fun i => w_junk w (w_jpos w + i)%nat) (seq 0 n), set_jpos w (w_jpos w + n)%nat).

(** One talloc allocation attempt: a fresh block, or NULL. *)
Definition talloc_try (w : world) : option nat * world :=
  let n := w_nalloc w in
  (if w_oom w n then None else Some n, set_nalloc w (S n)).

(** [open(path, O_RDONLY)]. *)
Definition sys_open (p : string) (w : world) : Z * world :=
  match w_fs w p with
  | None => (-1, set_errno w ENOENT)
  | Some (NErr e) => (-1, set_errno w e)
  | Some (NFile f) =>
      let fd := lowest_free (w_fds w) in
      (fd, set_fds w ((fd, mkOfd f 0) :: w_fds w))
  end.

(** [close(fd)]. *)
Definition sys_close (fd : Z) (w : world) : Z * world :=
  match fd_lookup fd (w_fds w) with
  | None => (-1, set_errno w EBADF)
  | Some _ => (0, set_fds w (fd_del fd (w_fds w)))
  end.

(** [lseek(fd, off, SEEK_SET)] with [off] an [off_t]. *)
Definition sys_lseek (fd : Z) (off : Z) (w : world) : Z * world :=
  match fd_lookup fd (w_fds w) with
  | None => (-1, set_errno w EBADF)
  | Some o =>
      if off <? 0 then (-1, set_errno w EINVAL)
      else (off, set_fds w (fd_set fd (mkOfd (o_file o) off) (w_fds w)))
  end.

Definition zrange (p : Z) (k : Z) : list Z :=
  map (fun i => p + Z.of_nat i) (seq 0 (Z.to_nat k)).

(** [read(fd, buf, n)]: the number of bytes read and the bytes; a read
    touching a bad offset fails with [EIO]. *)
Definition sys_read (fd : Z) (n : Z) (w : world) : Z * list Z * world :=
  match fd_lookup fd (w_fds w) with
  | None => (-1, [], set_errno w EBADF)
  | Some o =>
      let f := o_file o in
      let p := o_pos o in
      let k := Z.max 0 (Z.min n (f_size f - p)) in
      if existsb (f_bad f) (zrange p k) then (-1, [], set_errno w EIO)
      else (k, map (f_byte f) (zrange p k),
            set_fds w (fd_set fd (mkOfd f (p + k)) (w_fds w)))
  end.

(** Writing [data] at the start of a buffer [buf] (what [read] does to
    the memory it is given). *)
Definition overwrite (data buf : list Z) : list Z :=
  data ++ skipn (List.length data) buf.

(** ** The ELF structures *)

(** Modelled from the spec: the structures and constants of execve/elf.h
    (ElfHeader, ProgramHeader, DynamicEntry and the PT_ and DT_ values) are
    not in src/; they follow the ELF format that the spec (section 6)
    requires bit-exactly, read as raw structures on a little-endian host. *)
Definition sizeof_ElfHeader : Z := 64.        (** union of 52 and 64 bytes *)
Definition sizeof_ProgramHeader32 : Z := 32.
Definition sizeof_ProgramHeader64 : Z := 56.
Definition sizeof_ProgramHeader : nat := 56.  (** the union *)
Definition sizeof_DynamicEntry32 : Z := 8.
Definition sizeof_DynamicEntry64 : Z := 16.
Definition sizeof_DynamicEntry : nat := 16.   (** the union *)

Definition PT_LOAD : Z := 1.
Definition PT_DYNAMIC : Z := 2.
Definition DT_STRTAB : Z := 5.
Definition DT_RPATH : Z := 15.
Definition DT_RUNPATH : Z := 29.

(** Little-endian unsigned value of a byte sequence (a byte of the
    model is read as its value modulo 256). *)
Fixpoint le_value (bs : list Z) : Z :=
  match bs with
  | [] => 0
  | b :: bs' => b mod 256 + 256 * le_value bs'
  end.

(** The unsigned field of [n] bytes at offset [off] of a structure. *)
Definition ufield (s : list Z) (off n : nat) : Z :=
  le_value (firstn n (skipn off s)).

(** A signed field ([int32_t], [int64_t]). *)
Definition sfield (s : list Z) (off n : nat) : Z :=
  let v := ufield s off n in
  let m := 2 ^ (8 * Z.of_nat n) in
  if v <? m / 2 then v else v - m.

(** Modelled from the spec: the field-access macros of execve/elf.h
    (ELF_IDENT, IS_CLASS32, IS_CLASS64, ELF_FIELD, PROGRAM_FIELD,
    DYNAMIC_FIELD, KNOWN_PHENTSIZE), selecting the 32- or 64-bit layout by
    the class byte [e_ident[4]] (1 or 2). *)
Definition ELF_IDENT (h : list Z) (i : nat) : Z := nth i h 0.
Definition ELF_CLASS (h : list Z) : Z := ELF_IDENT h 4.
Definition IS_CLASS32 (h : list Z) : bool := ELF_CLASS h =? 1.
Definition IS_CLASS64 (h : list Z) : bool := ELF_CLASS h =? 2.

(** [ELF_FIELD(h, phnum)], [phentsize], [phoff], [machine]. *)
Definition elf_phnum (h : list Z) : Z :=
  if IS_CLASS64 h then ufield h 56 2 else ufield h 44 2.
Definition elf_phentsize (h : list Z) : Z :=
  if IS_CLASS64 h then ufield h 54 2 else ufield h 42 2.
Definition elf_phoff (h : list Z) : Z :=
  if IS_CLASS64 h then ufield h 32 8 else ufield h 28 4.
Definition elf_machine (h : list Z) : Z :=
  if IS_CLASS64 h then ufield h 18 2 else ufield h 18 2.

Definition KNOWN_PHENTSIZE (h : list Z) (size : Z) : bool :=
  (IS_CLASS32 h && (size =? sizeof_ProgramHeader32))
  || (IS_CLASS64 h && (size =? sizeof_ProgramHeader64)).

(** [PROGRAM_FIELD(h, ph, type | offset | vaddr | filesz | memsz)]. *)
Definition ph_type (h ph : list Z) : Z := ufield ph 0 4.
Definition ph_offset (h ph : list Z) : Z :=
  if IS_CLASS64 h then ufield ph 8 8 else ufield ph 4 4.
Definition ph_vaddr (h ph : list Z) : Z :=
  if IS_CLASS64 h then ufield ph 16 8 else ufield ph 8 4.
Definition ph_filesz (h ph : list Z) : Z :=
  if IS_CLASS64 h then ufield ph 32 8 else ufield ph 16 4.
Definition ph_memsz (h ph : list Z) : Z :=
  if IS_CLASS64 h then ufield ph 40 8 else ufield ph 20 4.

(** [DYNAMIC_FIELD(h, de, tag | val)]. *)
Definition dyn_tag (h de : list Z) : Z :=
  if IS_CLASS64 h then sfield de 0 8 else sfield de 0 4.
Definition dyn_val (h de : list Z) : Z :=
  if IS_CLASS64 h then ufield de 8 8 else ufield de 4 4.

(** ** open_elf *)

(** [open_elf(t_path, elf_header)]: the returned [int] and the caller's
    [ElfHeader] buffer [eh0] after the call. *)
Definition open_elf (t_path : string) (eh0 : list Z) (w : world) : Z * list Z * world :=
  let '(fd, w) := sys_open t_path w in
  if fd <? 0 then (- w_errno w, eh0, w)
  else
    let '(st, data, w) := sys_read fd sizeof_ElfHeader w in
    let eh := overwrite data eh0 in
    let status :=
      if st <? 0 then - w_errno w
      else if (st <? sizeof_ElfHeader)
              || negb (ELF_IDENT eh 0 =? 127)
              || negb (ELF_IDENT eh 1 =? 69)
              || negb (ELF_IDENT eh 2 =? 76)
              || negb (ELF_IDENT eh 3 =? 70)
           then - ENOEXEC
      else if negb (IS_CLASS32 eh) && negb (IS_CLASS64 eh) then - ENOEXEC
      else 0 in
    if status <? 0 then
      let '(_, w) := sys_close fd w in (status, eh, w)
    else (fd, eh, w).

(** ** find_program_header *)

(** The address test of the loop: [start < end && address >= start &&
    address <= end] with [end = start + memsz] in [uint64_t]. *)
Definition ph_contains (h ph : list Z) (address : Z) : bool :=
  let start := ph_vaddr h ph in
  let end_ := to_u64 (start + ph_memsz h ph) in
  (start <? end_) && (start <=? address) && (address <=? end_).

(** [address == (uint64_t) -1] *)
Definition WILDCARD : Z := UINT64_MAX.

(** The [for] loop over the [n] remaining entries: the returned [int] and
    the caller's [program_header] buffer. *)
Fixpoint fph_loop (n : nat) (fd : Z) (h : list Z) (phentsize : Z) (ph : list Z)
    (type address : Z) (w : world) : Z * list Z * world :=
  match n with
  | O => (0, ph, w)
  | S n' =>
      let '(st, data, w) := sys_read fd phentsize w in
      let ph := overwrite data ph in
      if negb (st =? phentsize) then
        ((if st <? 0 then - w_errno w else - ENOTSUP), ph, w)
      else if ph_type h ph =? type then
        if address =? WILDCARD then (1, ph, w)
        else if ph_contains h ph address then (1, ph, w)
        else fph_loop n' fd h phentsize ph type address w
      else fph_loop n' fd h phentsize ph type address w
  end.

Definition find_program_header (fd : Z) (h : list Z) (ph : list Z)
    (type address : Z) (w : world) : Z * list Z * world :=
  let phnum := elf_phnum h in
  let phentsize := elf_phentsize h in
  let phoff := elf_phoff h in
  if phnum >=? 65535 then (- ENOTSUP, ph, w)
  else if negb (KNOWN_PHENTSIZE h phentsize) then (- ENOTSUP, ph, w)
  else
    let '(r, w) := sys_lseek fd (to_s64 phoff) w in
    let status := to_s32 r in
    if status <? 0 then (- w_errno w, ph, w)
    else fph_loop (Z.to_nat phnum) fd h phentsize ph type address w.

(** ** is_host_elf *)

(** The [HOST_ELF_MACHINE] initialiser of arch.h: the machine codes the
    host runs natively, terminated by a zero entry; the loop
    [for (i = 0; host_elf_machine[i] != 0; i++)] looks for [m] in it. *)
Fixpoint machine_listed (l : list Z) (m : Z) : bool :=
  match l with
  | [] => false
  | x :: l' => if x =? 0 then false else if x =? m then true else machine_listed l' m
  end.

(** [if (force_foreign < 0) force_foreign = (getenv(...) != NULL);] *)
Definition resolve_force_foreign (w : world) : world :=
  if w_force_foreign w <? 0
  then set_force_foreign w (if w_env_force w then 1 else 0) else w.

Section HostElf.

Variable host_elf_machine : list Z.

(** [is_host_elf(tracee, host_path)], with [qemu] telling whether
    [tracee->qemu] is set. *)
Definition is_host_elf (qemu : bool) (host_path : string) (w : world) : bool * world :=
  let w := resolve_force_foreign w in
  if (w_force_foreign w >? 0) || negb qemu then (false, w)
  else
    let '(eh0, w) := fresh (Z.to_nat sizeof_ElfHeader) w in
    let '(fd, eh, w) := open_elf host_path eh0 w in
    if fd <? 0 then (false, w)
    else
      let '(_, w) := sys_close fd w in
      (machine_listed host_elf_machine (elf_machine eh), w).

End HostElf.

(** ** add_xpaths *)

(** [strnlen(s, n)]. *)
Fixpoint strnlen (s : list Z) (n : nat) : nat :=
  match n, s with
  | O, _ => O
  | _, [] => O
  | S n', b :: s' => if b =? 0 then O else S (strnlen s' n')
  end.

(** The C string stored in a buffer: its bytes up to the first NUL. *)
Fixpoint c_string (s : list Z) : list Z :=
  match s with
  | [] => []
  | b :: s' => if b =? 0 then [] else b :: c_string s'
  end.

(** How the [do ... while] loop of add_xpaths ends: by a [return], or
    normally with the [paths] buffer and [length]. *)
Inductive loop_out := LRet (z : Z) | LDone (paths : list Z) (length : Z).

(** The [do ... while (length == size)] loop; [paths] is the buffer
    (of [length] bytes at the start of an iteration).  The loop has no
    bound of its own: [fuel] counts iterations and [None] means it ran out. *)
Fixpoint xpaths_loop (fuel : nat) (fd : Z) (paths : list Z) (length : Z)
    (w : world) : option (loop_out * world) :=
  match fuel with
  | O => None
  | S fuel' =>
      let size := length + 1024 in
      let '(tmp, w) := talloc_try w in
      match tmp with
      | None => Some (LRet (- ENOMEM), w)
      | Some _ =>
          let '(more, w) := fresh 1024 w in
          let paths := paths ++ more in
          let '(status, data, w) := sys_read fd 1024 w in
          if status <? 0 then Some (LRet status, w)
          else
            let paths := firstn (Z.to_nat length) paths
                         ++ overwrite data (skipn (Z.to_nat length) paths) in
            let length := length
                          + Z.of_nat (strnlen (skipn (Z.to_nat length) paths) 1024) in
            if length =? size then xpaths_loop fuel' fd paths length w
            else Some (LDone paths length, w)
      end
  end.

(** [add_xpaths(tracee, fd, offset, xpaths)] with [xpaths] pointing to
    the cell [c]: the returned [int]. *)
Definition add_xpaths (fuel : nat) (fd : Z) (offset : Z) (c : cell) (w : world)
    : option (Z * world) :=
  let '(r, w) := sys_lseek fd (to_s64 offset) w in
  if to_s32 r <? 0 then Some (- w_errno w, w)
  else
    match xpaths_loop fuel fd [] 0 w with
    | None => None
    | Some (LRet z, w) => Some (z, w)
    | Some (LDone paths length, w) =>
        match get_cell w c with
        | None =>
            let '(p, w) := talloc_try w in
            match p with
            | None => Some (- ENOMEM, set_cell w c None)
            | Some b => Some (0, set_cell w c (Some (b, c_string paths)))
            end
        | Some (b, s) =>
            let '(tmp, w) := talloc_try w in
            match tmp with
            | None => Some (- ENOMEM, w)
            | Some b' => Some (0, set_cell w c (Some (b', s ++ [58] ++ c_string paths)))
            end
        end
    end.

(** ** read_ldso_rpaths *)

(** How one iteration of FOREACH_DYNAMIC_ENTRY's embedded code ends. *)
Inductive flow := FNext | FBreak | FReturn (z : Z).

(** [FOREACH_DYNAMIC_ENTRY(type, embedded_code)] over the entries
    [i, i+1, ...] ([k] of them left), with [embedded_code] as [body] over a
    local state of type [L]. *)
Fixpoint foreach_dynamic_entry {L : Type} (k : nat) (i : Z) (fd : Z) (h : list Z)
    (offsetof_dynamic_segment sizeof_dynamic_entry type : Z)
    (body : L -> Z -> world -> option (flow * L * world)) (l : L) (w : world)
    : option (flow * L * world) :=
  match k with
  | O => Some (FNext, l, w)
  | S k' =>
      let '(de, w) := fresh sizeof_DynamicEntry w in
      let '(r, w) := sys_lseek fd
          (to_s64 (to_u64 (offsetof_dynamic_segment + i * sizeof_dynamic_entry))) w in
      if to_s32 r <? 0 then Some (FReturn (- w_errno w), l, w)
      else
        let '(status, data, w) := sys_read fd sizeof_dynamic_entry w in
        if status <? 0 then Some (FReturn status, l, w)
        else
          let de := overwrite data de in
          if negb (dyn_tag h de =? type) then
            foreach_dynamic_entry k' (i + 1) fd h offsetof_dynamic_segment
              sizeof_dynamic_entry type body l w
          else
            match body l (dyn_val h de) w with
            | None => None
            | Some (FNext, l, w) =>
                foreach_dynamic_entry k' (i + 1) fd h offsetof_dynamic_segment
                  sizeof_dynamic_entry type body l w
            | Some (FBreak, l, w) => Some (FNext, l, w)
            | Some (FReturn z, l, w) => Some (FReturn z, l, w)
            end
  end.

(** The embedded code of the DT_STRTAB scan:
    [strtab_address = value; break;]. *)
Definition strtab_body (strtab_address : Z) (value : Z) (w : world)
    : option (flow * Z * world) :=
  Some (FBreak, value, w).

(** The embedded code of the DT_RPATH and DT_RUNPATH scans. *)
Definition xpath_entry (fuel : nat) (fd : Z) (strtab_offset : Z) (c : cell)
    (value : Z) (w : world) : option (flow * world) :=
  if (strtab_offset <? 0) || (UINT64_MAX - value <? strtab_offset) then
    Some (FReturn (- ENOEXEC), w)
  else
    match add_xpaths fuel fd (to_u64 (strtab_offset + value)) c w with
    | None => None
    | Some (status, w) => if status <? 0 then Some (FReturn status, w) else Some (FNext, w)
    end.

Definition xpath_body (fuel : nat) (fd : Z) (strtab_offset : Z) (c : cell)
    (u : unit) (value : Z) (w : world) : option (flow * unit * world) :=
  match xpath_entry fuel fd strtab_offset c value w with
  | None => None
  | Some (f, w) => Some (f, u, w)
  end.

(** [read_ldso_rpaths(tracee, fd, elf_header, rpaths, runpaths)] with
    [rpaths] and [runpaths] the cells [Rpaths] and [Runpaths] of the world:
    the returned [int]; [None] when an add_xpaths loop exceeds [fuel]. *)
Definition read_ldso_rpaths (fuel : nat) (fd : Z) (h : list Z) (w : world)
    : option (Z * world) :=
  let '(dynamic_segment, w) := fresh sizeof_ProgramHeader w in
  let '(strtab_segment, w) := fresh sizeof_ProgramHeader w in
  let '(status, dynamic_segment, w) :=
    find_program_header fd h dynamic_segment PT_DYNAMIC WILDCARD w in
  if status <=? 0 then Some (status, w)
  else
    let offsetof_dynamic_segment := ph_offset h dynamic_segment in
    let sizeof_dynamic_segment := ph_filesz h dynamic_segment in
    let sizeof_dynamic_entry :=
      if IS_CLASS32 h then sizeof_DynamicEntry32 else sizeof_DynamicEntry64 in
    if negb (sizeof_dynamic_segment mod sizeof_dynamic_entry =? 0) then Some (- ENOEXEC, w)
    else
      let n := Z.to_nat (sizeof_dynamic_segment / sizeof_dynamic_entry) in
      match foreach_dynamic_entry n 0 fd h offsetof_dynamic_segment
              sizeof_dynamic_entry DT_STRTAB strtab_body WILDCARD w with
      | None => None
      | Some (FReturn z, _, w) => Some (z, w)
      | Some (_, strtab_address, w) =>
          if strtab_address =? WILDCARD then Some (0, w)
          else
            let '(status, strtab_segment, w) :=
              find_program_header fd h strtab_segment PT_LOAD strtab_address w in
            if status <? 0 then Some (status, w)
            else
              let strtab_offset :=
                to_s64 (ph_offset h strtab_segment
                        + (strtab_address - ph_vaddr h strtab_segment)) in
              match foreach_dynamic_entry n 0 fd h offsetof_dynamic_segment
                      sizeof_dynamic_entry DT_RPATH
                      (xpath_body fuel fd strtab_offset Rpaths) tt w with
              | None => None
              | Some (FReturn z, _, w) => Some (z, w)
              | Some (_, _, w) =>
                  match foreach_dynamic_entry n 0 fd h offsetof_dynamic_segment
                          sizeof_dynamic_entry DT_RUNPATH
                          (xpath_body fuel fd strtab_offset Runpaths) tt w with
                  | None => None
                  | Some (FReturn z, _, w) => Some (z, w)
                  | Some (_, _, w) => Some (0, w)
                  end
              end
      end.

(** ** Concrete images *)

(** [n] little-endian bytes of [v]. *)
Fixpoint le_bytes (n : nat) (v : Z) : list Z :=
  match n with
  | O => []
  | S n' => (v mod 256) :: le_bytes n' (v / 256)
  end.

Definition bytes_of_string (s : string) : list Z :=
  map (fun a => Z.of_nat (nat_of_ascii a)) (list_ascii_of_string s).

(** An ELF64 header with [phnum] program headers of [phentsize] bytes
    at [phoff]. *)
Definition ehdr64 (machine phoff phentsize phnum : Z) : list Z :=
  [127; 69; 76; 70; 2; 1; 1; 0] ++ repeat 0 8
  ++ le_bytes 2 2 ++ le_bytes 2 machine ++ le_bytes 4 1 ++ le_bytes 8 0
  ++ le_bytes 8 phoff ++ le_bytes 8 0 ++ le_bytes 4 0 ++ le_bytes 2 64
  ++ le_bytes 2 phentsize ++ le_bytes 2 phnum ++ le_bytes 2 64
  ++ le_bytes 2 0 ++ le_bytes 2 0.

(** An Elf64_Phdr. *)
Definition phdr64 (type offset vaddr filesz memsz : Z) : list Z :=
  le_bytes 4 type ++ le_bytes 4 0 ++ le_bytes 8 offset ++ le_bytes 8 vaddr
  ++ le_bytes 8 vaddr ++ le_bytes 8 filesz ++ le_bytes 8 memsz ++ le_bytes 8 0.

(** An Elf64_Dyn. *)
Definition dyn64 (tag val : Z) : list Z := le_bytes 8 tag ++ le_bytes 8 val.

Definition file_of_list (l : list Z) : file :=
  mkFile (Z.of_nat (List.length l)) (fun i => nth (Z.to_nat i) l 0) (fun _ => false).

(** A process with [f] open as descriptor 3, errno 0, no failing
    allocation, uninitialised memory filled with [0xAA], no accumulated
    paths, and the force-foreign flag not computed yet. *)
Definition world_with (fs : string -> option node) (f : file) : world :=
  mkWorld fs [(3, mkOfd f 0)] 0 (fun _ => 170) 0 (fun _ => false) 0 None None false (-1).

Definition no_files : string -> option node := fun _ => None.

(** An ELF64 image: header, a PT_LOAD mapping the whole file at address
    [lv], a PT_DYNAMIC of [List.length dyns] entries at offset and address
    0x100, and the string table [strtab] at offset 0x200. *)
Definition image64_at (lv : Z) (dyns : list (Z * Z)) (strtab : list Z) : list Z :=
  let dyn := flat_map (fun p => dyn64 (fst p) (snd p)) dyns in
  let size := 512 + Z.of_nat (List.length strtab) in
  let head := ehdr64 62 64 56 2
              ++ phdr64 PT_LOAD 0 lv size size
              ++ phdr64 PT_DYNAMIC 256 256 (Z.of_nat (List.length dyn))
                        (Z.of_nat (List.length dyn)) in
  let head := head ++ repeat 0 (256 - List.length head) in
  let mid := head ++ dyn in
  mid ++ repeat 0 (512 - List.length mid) ++ strtab.

Definition image64 := image64_at 0.

Definition runpath_image : list Z :=
  image64 [(DT_STRTAB, 512); (DT_RUNPATH, 0); (DT_RUNPATH, 9); (0, 0)]
          (bytes_of_string "/usr/lib" ++ [0] ++ bytes_of_string "/lib" ++ [0]).

(** The header of a concrete image, as open_elf reads it. *)
Definition header_of (img : list Z) : list Z := firstn 64 img.

Definition run_rpaths (img : list Z) (w : world) : option (Z * xstring * xstring) :=
  match read_ldso_rpaths 8 3 (header_of img) w with
  | Some (z, w') => Some (z, w_rpaths w', w_runpaths w')
  | None => None
  end.

(** An image whose DT_STRTAB address 0x200 lies in no PT_LOAD segment (the
    only one is mapped at 0x400000), with a DT_RPATH entry. *)
Definition unmapped_strtab_image : list Z :=
  image64_at 4194304 [(DT_STRTAB, 512); (DT_RPATH, 0); (0, 0)]
             (bytes_of_string "/opt/lib" ++ [0]).

(** [runpath_image] on a medium whose byte at offset [bad] cannot be read. *)
Definition faulty_file (bad : Z) : file :=
  mkFile (Z.of_nat (List.length runpath_image))
         (fun i => nth (Z.to_nat i) runpath_image 0) (fun i => i =? bad).

(** A 2 GiB + 56 bytes ELF64 file whose single program header (a
    PT_DYNAMIC) is at offset 0x80000000. *)
Definition high_phoff : Z := 2 ^ 31.
Definition high_header : list Z := ehdr64 62 high_phoff 56 1.
Definition high_phdr : list Z := phdr64 PT_DYNAMIC 0 0 0 0.
Definition high_file : file :=
  mkFile (high_phoff + 56)
    (fun i => if i <? 64 then nth (Z.to_nat i) high_header 0
              else if high_phoff <=? i then nth (Z.to_nat (i - high_phoff)) high_phdr 0
              else 0)
    (fun _ => false).

(** An image with two DT_RUNPATH entries, the first naming the empty
    string and the second "/lib". *)
Definition empty_then_lib_image : list Z :=
  image64 [(DT_STRTAB, 512); (DT_RUNPATH, 0); (DT_RUNPATH, 1); (0, 0)]
          ([0] ++ bytes_of_string "/lib" ++ [0]).

Definition world_of_image (img : list Z) : world :=
  world_with no_files (file_of_list img).

(** ** Proof helpers and further concrete inputs *)

(** Turn [E : f ... = (a, w')] into [get_cell w' c = get_cell w c]. *)
Ltac cell_step E lem :=
  let H := fresh "Hc" in
  pose proof lem as H; rewrite E in H; cbn [snd] in H.

(** The [k] entries of [s] bytes stored in [f] from offset [p]. *)
Fixpoint ph_table (f : file) (p s : Z) (k : nat) : list (list Z) :=
  match k with
  | O => []
  | S k' => map (f_byte f) (zrange p s) :: ph_table f (p + s) s k'
  end.

(** The test the loop of find_program_header applies to an entry. *)
Definition ph_matches (h : list Z) (type address : Z) (e : list Z) : bool :=
  (ph_type h e =? type) && ((address =? WILDCARD) || ph_contains h e address).

(** Settles a hypothesis on concrete data by evaluation. *)
Ltac concrete := repeat split; intros; vm_compute; (reflexivity || discriminate || lia).

(** An ELF64 image whose only program header is a PT_LOAD at [vaddr] of
    [memsz] bytes. *)
Definition load_image (vaddr memsz : Z) : list Z :=
  ehdr64 62 64 56 1 ++ phdr64 PT_LOAD 0 vaddr 0 memsz.

Definition lookup_load (vaddr memsz address : Z) : Z :=
  let img := load_image vaddr memsz in
  fst (fst (find_program_header 3 (header_of img) (repeat 0 56) PT_LOAD address
                (world_of_image img))).

(** A process whose [runpaths] already holds "/a" and whose second
    allocation fails. *)
Definition oom_world : world :=
  mkWorld no_files [(3, mkOfd (file_of_list runpath_image) 0)] 0 (fun _ => 170) 0
    (fun n => Nat.eqb n 1) 0 None (Some (7%nat, bytes_of_string "/a")) false (-1).

Definition world_after (r : option (Z * world)) (w : world) : world :=
  match r with Some (_, w') => w' | None => w end.

(** The file behind descriptor [fd]. *)
Definition fd_file (fd : Z) (w : world) : option file :=
  option_map o_file (fd_lookup fd (w_fds w)).

(** The size read for a dynamic entry matches the layout [dyn_tag] uses. *)
Definition dyn_size_ok (h : list Z) (s : Z) : Prop :=
  (IS_CLASS64 h = false /\ s = 8) \/ (IS_CLASS64 h = true /\ s = 16).

(** An ELF64 image whose dynamic section holds a DT_RUNPATH entry but no
    DT_STRTAB entry. *)
Definition no_strtab_image : list Z :=
  image64 [(DT_RUNPATH, 0); (0, 0)] (bytes_of_string "/lib" ++ [0]).

(** A process in which "/etc/motd" is a text file, "/root/a.out" is
    [runpath_image], and opening "/secret" is refused with [EACCES]. *)
Definition motd_file : file := file_of_list (bytes_of_string "#!/bin/sh
echo hello
").

Definition motd_fs (p : string) : option node :=
  if String.eqb p "/etc/motd" then Some (NFile motd_file)
  else if String.eqb p "/root/a.out" then Some (NFile (file_of_list runpath_image))
  else if String.eqb p "/secret" then Some (NErr 13)
  else None.

Definition motd_world : world := world_with motd_fs (file_of_list runpath_image).

(** [runpath_image] open as descriptor 3, with [runpaths] holding the
    empty string. *)
Definition empty_runpaths_world : world :=
  set_cell (world_of_image runpath_image) Runpaths (Some (5%nat, [])).

(** The [HOST_ELF_MACHINE] list of an x86_64 host: EM_X86_64, EM_386,
    EM_486. *)
Definition x86_64_machines : list Z := [62; 3; 6; 0].

(** [motd_world] with PROOT_FORCE_FOREIGN_BINARY set. *)
Definition forced_world : world :=
  mkWorld motd_fs (w_fds motd_world) 0 (fun _ => 170) 0 (fun _ => false) 0
    None None true (-1).

(** A file holding a string of 1500 slashes and its NUL: the string spans
    two chunks of the read loop. *)
Definition long_path_file : file := file_of_list (repeat 47 1500 ++ [0]).

(** The process with PROOT_FORCE_FOREIGN_BINARY set or unset. *)
Definition set_env_force (w : world) (b : bool) : world :=
  mkWorld (w_fs w) (w_fds w) (w_errno w) (w_junk w) (w_jpos w) (w_oom w)
    (w_nalloc w) (w_rpaths w) (w_runpaths w) b (w_force_foreign w).

(** The image of [image64] cut off after 150 bytes, in the middle of its
    second program header (the PT_DYNAMIC). *)
Definition truncated_image : list Z := firstn 150 (image64 [(0, 0)] []).

(** The two properties read_ldso_rpaths keeps from [w] to [w']: the file
    behind every descriptor, and each accumulated path string as a prefix. *)
Definition grows (w w' : world) : Prop :=
  (forall fd, fd_file fd w' = fd_file fd w)
  /\ (forall c b s, get_cell w c = Some (b, s) -> exists b' t, get_cell w' c = Some (b', s ++ t)).

(** [runpath_image] open as descriptor 3, with "/a" already in runpaths. *)
Definition preset_world : world :=
  set_cell (world_of_image runpath_image) Runpaths (Some (7%nat, bytes_of_string "/a")).

Definition run_preset (fuel : nat) : option (Z * world) :=
  read_ldso_rpaths fuel 3 (header_of runpath_image) preset_world.

(** "/usr/lib" with no NUL after it, open as descriptor 3, in a process whose
    uninitialised memory holds a NUL at its 12th byte only. *)
Definition eof_world : world :=
  mkWorld no_files [(3, mkOfd (file_of_list (bytes_of_string "/usr/lib")) 0)] 0
    (fun i => if Nat.eqb i 12 then 0 else 170) 0 (fun _ => false) 0 None None false (-1).

(** What a step leaves as it was: the file behind every descriptor, both
    accumulated path strings, and which allocations fail. *)
Definition frame (w w' : world) : Prop :=
  (forall fd, fd_file fd w' = fd_file fd w)
  /\ (forall c, get_cell w' c = get_cell w c) /\ w_oom w' = w_oom w.

(** The values of the entries of [ds] that carry the tag [type], in order. *)
Definition dyn_values (h : list Z) (type : Z) (ds : list (list Z)) : list Z :=
  map (dyn_val h) (filter (fun d => dyn_tag h d =? type) ds).

(** The file holds at [so + v] the string [s] (no NUL in it) followed by a
    NUL inside the file, below the 2 GiB the [(int) lseek] check admits, and
    short enough for [fuel] iterations of the read loop of add_xpaths. *)
Definition str_at (f : file) (fuel : nat) (so v : Z) (s : list Z) : Prop :=
  let p := so + v in
  let n := Z.of_nat (List.length s) in
  p < 2 ^ 31 /\ p + n < f_size f /\ map (f_byte f) (zrange p n) = s /\ ~ In 0 s
  /\ f_byte f (p + n) = 0 /\ n / 1024 < Z.of_nat fuel.

(** A path list after appending the strings [strs] one by one, as add_xpaths
    does: the first string alone, and each one after a ':' otherwise. *)
Fixpoint joined (acc : option (list Z)) (strs : list (list Z)) : option (list Z) :=
  match strs with
  | [] => acc
  | s :: r => joined (Some (match acc with None => s | Some old => old ++ [58] ++ s end)) r
  end.

(** ** Evaluations of the code on concrete images *)

Example runpath_image_result :
  run_rpaths runpath_image (world_of_image runpath_image)
  = Some (0, None, Some (3%nat, bytes_of_string "/usr/lib:/lib")).
Proof. vm_compute. reflexivity. Qed.

(** C1: a DT_STRTAB address that no PT_LOAD segment contains is not
    reported as [ENOEXEC]: read_ldso_rpaths succeeds and extracts "/opt/lib"
    at an offset computed from the last program header it read. *)
Lemma read_ldso_rpaths_unmapped_strtab :
  run_rpaths unmapped_strtab_image (world_of_image unmapped_strtab_image)
  = Some (0, Some (1%nat, bytes_of_string "/opt/lib"), None)
  /\ fst (fst (find_program_header 3 (header_of unmapped_strtab_image) (repeat 0 56)
                 PT_LOAD 512 (world_of_image unmapped_strtab_image))) = 0.
Proof. split; vm_compute; reflexivity. Qed.

(** C2: when the read of a dynamic entry, or the read of the path text in
    add_xpaths, fails with [EIO], read_ldso_rpaths returns the raw [-1] of
    read(2), not [-EIO]; a failing read of the program header table, by
    contrast, gives [-EIO]. *)
Lemma read_error_returns_minus_one :
  run_rpaths runpath_image (world_with no_files (faulty_file 256)) = Some (-1, None, None)
  /\ run_rpaths runpath_image (world_with no_files (faulty_file 520)) = Some (-1, None, None)
  /\ - EIO <> -1
  /\ fst (fst (find_program_header 3 (header_of runpath_image) (repeat 0 56)
                 PT_DYNAMIC WILDCARD (world_with no_files (faulty_file 100)))) = - EIO.
Proof. repeat split; vm_compute; congruence. Qed.

(** C5: with its program header table at offset 0x80000000 the lookup of
    the table's only entry, a PT_DYNAMIC, returns the stale errno: "not
    found" when errno is 0, [-ENOENT] after a failed open elsewhere. *)
Lemma find_program_header_high_phoff :
  ph_type high_header (map (f_byte high_file) (zrange high_phoff 56)) = PT_DYNAMIC
  /\ fst (fst (find_program_header 3 high_header (repeat 0 56) PT_DYNAMIC WILDCARD
                 (world_with no_files high_file))) = 0
  /\ fst (fst (find_program_header 3 high_header (repeat 0 56) PT_DYNAMIC WILDCARD
                 (set_errno (world_with no_files high_file) ENOENT))) = - ENOENT.
Proof. repeat split; vm_compute; reflexivity. Qed.

(** C7: an accumulator holding the empty string is not replaced by the
    next text: the second DT_RUNPATH entry gives ":/lib", not "/lib". *)
Lemma empty_accumulator_gets_separator :
  run_rpaths empty_then_lib_image (world_of_image empty_then_lib_image)
  = Some (0, None, Some (3%nat, bytes_of_string ":/lib"))
  /\ bytes_of_string ":/lib" <> bytes_of_string "/lib".
Proof. split; vm_compute; [reflexivity | congruence]. Qed.

(** ** The accumulators are only written by add_xpaths's final step *)

Lemma get_set_cell w c x : get_cell (set_cell w c x) c = x.
Proof. destruct c; reflexivity. Qed.

Lemma sys_lseek_cell fd off w c : get_cell (snd (sys_lseek fd off w)) c = get_cell w c.
Proof.
  unfold sys_lseek; destruct (fd_lookup fd (w_fds w)); [destruct (off <? 0)|];
    destruct c; reflexivity.
Qed.

Lemma sys_read_cell fd n w c : get_cell (snd (sys_read fd n w)) c = get_cell w c.
Proof.
  unfold sys_read; destruct (fd_lookup fd (w_fds w)) as [o|]; [destruct existsb|];
    destruct c; reflexivity.
Qed.

Lemma talloc_try_cell w c : get_cell (snd (talloc_try w)) c = get_cell w c.
Proof. destruct c; reflexivity. Qed.

Lemma fresh_cell n w c : get_cell (snd (fresh n w)) c = get_cell w c.
Proof. destruct c; reflexivity. Qed.

Lemma xpaths_loop_cell fuel fd paths length w r w' c :
  xpaths_loop fuel fd paths length w = Some (r, w') -> get_cell w' c = get_cell w c.
Proof.
  revert paths length w.
  induction fuel as [|fuel IH]; intros paths length w Hl; [discriminate|].
  cbn [xpaths_loop] in Hl.
  destruct (talloc_try w) as [tmp w1] eqn:E1.
  cell_step E1 (talloc_try_cell w c).
  destruct tmp as [b|]; [|injection Hl as <- <-; exact Hc].
  destruct (fresh 1024 w1) as [more w2] eqn:E2.
  cell_step E2 (fresh_cell 1024 w1 c).
  destruct (sys_read fd 1024 w2) as [[status data] w3] eqn:E3.
  cell_step E3 (sys_read_cell fd 1024 w2 c).
  destruct (status <? 0); [injection Hl as <- <-; congruence|].
  match type of Hl with
  | (if ?t then _ else _) = _ => destruct t
  end.
  - rewrite (IH _ _ _ Hl). congruence.
  - injection Hl as <- <-. congruence.
Qed.

(** After a successful add_xpaths, or when the accumulator was NULL,
    the rest of the world's accumulators are untouched. *)
Lemma add_xpaths_other_cell fuel fd offset c c' w status w' :
  c <> c' -> add_xpaths fuel fd offset c w = Some (status, w') ->
  get_cell w' c' = get_cell w c'.
Proof.
  intros Hne H. unfold add_xpaths in H.
  destruct (sys_lseek fd (to_s64 offset) w) as [r w1] eqn:E1.
  cell_step E1 (sys_lseek_cell fd (to_s64 offset) w c').
  destruct (to_s32 r <? 0); [injection H as _ <-; exact Hc|].
  destruct (xpaths_loop fuel fd [] 0 w1) as [[[z|paths length] w2]|] eqn:E2;
    [| |discriminate].
  - injection H as _ <-. rewrite (xpaths_loop_cell _ _ _ _ _ _ _ c' E2). exact Hc.
  - pose proof (xpaths_loop_cell _ _ _ _ _ _ _ c' E2) as Hc2.
    assert (Hoth : forall w0 x, get_cell (set_cell w0 c x) c' = get_cell w0 c')
      by (intros; destruct c, c'; try reflexivity; congruence).
    destruct (get_cell w2 c) as [[b s]|];
      destruct (talloc_try w2) as [[b'|] w3] eqn:E3;
      cell_step E3 (talloc_try_cell w2 c'); injection H as _ <-;
      rewrite ?Hoth; congruence.
Qed.

(** ** C10: add_xpaths leaves its accumulator as it was on every error *)

(** C10: whenever add_xpaths returns an error (a negative status: failed
    seek, failed read, failed allocation in the read loop or while
    concatenating), the accumulator [*xpaths] it was given holds the same
    pointer and the same contents as before the call. *)
Theorem add_xpaths_atomic fuel fd offset c w status w' :
  add_xpaths fuel fd offset c w = Some (status, w') -> status < 0 ->
  get_cell w' c = get_cell w c.
Proof.
  intros H Hneg. unfold add_xpaths in H.
  destruct (sys_lseek fd (to_s64 offset) w) as [r w1] eqn:E1.
  cell_step E1 (sys_lseek_cell fd (to_s64 offset) w c).
  destruct (to_s32 r <? 0); [injection H as _ <-; exact Hc|].
  destruct (xpaths_loop fuel fd [] 0 w1) as [[[z|paths length] w2]|] eqn:E2;
    [| |discriminate].
  - injection H as _ <-. rewrite (xpaths_loop_cell _ _ _ _ _ _ _ c E2). exact Hc.
  - pose proof (xpaths_loop_cell _ _ _ _ _ _ _ c E2) as Hc2.
    destruct (get_cell w2 c) as [[b s]|] eqn:Eacc;
      destruct (talloc_try w2) as [[b'|] w3] eqn:E3;
      cell_step E3 (talloc_try_cell w2 c); injection H as Hs <-;
      subst status; try lia.
    + congruence.
    + rewrite get_set_cell. congruence.
Qed.

(** ** C4: the offset given to add_xpaths never wraps *)

(** C4: for a DT_RPATH or DT_RUNPATH entry of value [value] (a [uint64_t])
    and the string table's file offset [strtab_offset], the embedded code
    fails with [ENOEXEC] when [strtab_offset > UINT64_MAX - value], and
    otherwise calls add_xpaths at the exact sum [strtab_offset + value],
    which is at most [UINT64_MAX]. *)
Theorem xpath_entry_exact_offset fuel fd strtab_offset c value w :
  0 <= value <= UINT64_MAX ->
  (UINT64_MAX - value < strtab_offset ->
     xpath_entry fuel fd strtab_offset c value w = Some (FReturn (- ENOEXEC), w))
  /\ (0 <= strtab_offset <= UINT64_MAX - value ->
        strtab_offset + value <= UINT64_MAX
        /\ xpath_entry fuel fd strtab_offset c value w
           = match add_xpaths fuel fd (strtab_offset + value) c w with
             | None => None
             | Some (status, w') =>
                 if status <? 0 then Some (FReturn status, w') else Some (FNext, w')
             end).
Proof.
  intros Hv. split.
  - intros Hgt. unfold xpath_entry.
    replace (UINT64_MAX - value <? strtab_offset) with true
      by (symmetry; apply Z.ltb_lt; exact Hgt).
    rewrite orb_true_r. reflexivity.
  - intros Hso. split; [lia|]. unfold xpath_entry.
    replace (strtab_offset <? 0) with false by (symmetry; apply Z.ltb_ge; lia).
    replace (UINT64_MAX - value <? strtab_offset) with false
      by (symmetry; apply Z.ltb_ge; lia).
    cbn [orb].
    replace (to_u64 (strtab_offset + value)) with (strtab_offset + value).
    + reflexivity.
    + unfold to_u64. rewrite Z.mod_small; [reflexivity|].
      unfold UINT64_MAX in *. lia.
Qed.

(** ** Reading a program header table *)

Lemma fd_lookup_set fd o l : fd_lookup fd (fd_set fd o l) = Some o.
Proof.
  induction l as [|[k o'] l IH]; cbn; [rewrite Z.eqb_refl; reflexivity|].
  destruct (k =? fd) eqn:E; cbn; rewrite E; [reflexivity|exact IH].
Qed.

Lemma zrange_length p k : List.length (zrange p k) = Z.to_nat k.
Proof. unfold zrange. rewrite length_map, length_seq. reflexivity. Qed.

Lemma in_zrange p k i : In i (zrange p k) -> p <= i < p + k.
Proof.
  unfold zrange. intros Hi. apply in_map_iff in Hi as [j [<- Hj]].
  apply in_seq in Hj. lia.
Qed.

(** A read inside the file and clear of bad offsets returns all the bytes
    asked for and advances the offset. *)
Lemma sys_read_ok fd s w f p :
  fd_lookup fd (w_fds w) = Some (mkOfd f p) -> 0 <= s -> p + s <= f_size f ->
  (forall i, p <= i < p + s -> f_bad f i = false) ->
  sys_read fd s w
  = (s, map (f_byte f) (zrange p s), set_fds w (fd_set fd (mkOfd f (p + s)) (w_fds w))).
Proof.
  intros Hfd Hs Hsize Hbad. unfold sys_read. rewrite Hfd. cbn [o_file o_pos].
  replace (Z.max 0 (Z.min s (f_size f - p))) with s by lia.
  destruct (existsb (f_bad f) (zrange p s)) eqn:Eb; [|reflexivity].
  apply existsb_exists in Eb as [i [Hi Hb]].
  apply in_zrange in Hi. rewrite Hbad in Hb by lia. discriminate.
Qed.

Lemma le_value_bounds bs : 0 <= le_value bs < 2 ^ (8 * Z.of_nat (List.length bs)).
Proof.
  induction bs as [|b bs IH]; cbn [le_value List.length]; [cbn; lia|].
  replace (8 * Z.of_nat (S (List.length bs))) with (8 + 8 * Z.of_nat (List.length bs)) by lia.
  rewrite Z.pow_add_r by lia.
  pose proof (Z.mod_pos_bound b 256 ltac:(lia)). change (2 ^ 8) with 256. nia.
Qed.

Lemma ufield_bounds s off n : 0 <= ufield s off n < 2 ^ (8 * Z.of_nat n).
Proof.
  unfold ufield. pose proof (le_value_bounds (firstn n (skipn off s))) as H.
  rewrite length_firstn in H. split; [lia|].
  eapply Z.lt_le_trans; [apply H|]. apply Z.pow_le_mono_r; lia.
Qed.

(** A field lying within [e] reads the same in [e ++ r]. *)
Lemma ufield_app e r off n :
  (off + n <= List.length e)%nat -> ufield (e ++ r) off n = ufield e off n.
Proof.
  intros H. unfold ufield. rewrite skipn_app.
  replace (off - List.length e)%nat with O by lia.
  rewrite firstn_app, length_skipn.
  replace (n - (List.length e - off))%nat with O by lia.
  rewrite firstn_O, app_nil_r. reflexivity.
Qed.

Lemma known_phentsize_cases h s :
  KNOWN_PHENTSIZE h s = true ->
  (IS_CLASS64 h = false /\ s = 32) \/ (IS_CLASS64 h = true /\ s = 56).
Proof.
  unfold KNOWN_PHENTSIZE, IS_CLASS32, IS_CLASS64,
    sizeof_ProgramHeader32, sizeof_ProgramHeader64.
  destruct (ELF_CLASS h =? 1) eqn:E1, (ELF_CLASS h =? 2) eqn:E2; cbn; intros H;
    try discriminate; rewrite ?orb_false_r in H.
  - apply Z.eqb_eq in E1, E2. lia.
  - apply Z.eqb_eq in H. left. split; [reflexivity|exact H].
  - apply Z.eqb_eq in H. right. split; [reflexivity|exact H].
Qed.

(** The fields the code reads from a program header lie in its first
    [phentsize] bytes. *)
Lemma ph_fields_app h e r :
  KNOWN_PHENTSIZE h (Z.of_nat (List.length e)) = true ->
  ph_type h (e ++ r) = ph_type h e /\ ph_offset h (e ++ r) = ph_offset h e
  /\ ph_vaddr h (e ++ r) = ph_vaddr h e /\ ph_filesz h (e ++ r) = ph_filesz h e
  /\ ph_memsz h (e ++ r) = ph_memsz h e.
Proof.
  intros Hk. unfold ph_type, ph_offset, ph_vaddr, ph_filesz, ph_memsz.
  destruct (known_phentsize_cases _ _ Hk) as [[E L]|[E L]]; rewrite E;
    repeat split; apply ufield_app; lia.
Qed.

Lemma ph_matches_app h type address e r :
  KNOWN_PHENTSIZE h (Z.of_nat (List.length e)) = true ->
  ph_matches h type address (e ++ r) = ph_matches h type address e.
Proof.
  intros Hk. destruct (ph_fields_app h e r Hk) as (T & _ & V & _ & M).
  unfold ph_matches, ph_contains. rewrite T, V, M. reflexivity.
Qed.

Lemma firstn_overwrite e r : firstn (List.length e) (overwrite e r) = e.
Proof. unfold overwrite. rewrite firstn_app, Nat.sub_diag, firstn_all, app_nil_r. reflexivity. Qed.

(** The loop of find_program_header over [k] readable entries stops at
    the first one the test accepts. *)
Lemma fph_loop_scan k fd h s ph type address w f p :
  fd_lookup fd (w_fds w) = Some (mkOfd f p) ->
  KNOWN_PHENTSIZE h s = true ->
  p + Z.of_nat k * s <= f_size f ->
  (forall i, p <= i < p + Z.of_nat k * s -> f_bad f i = false) ->
  let '(st, ph', _) := fph_loop k fd h s ph type address w in
  match find (ph_matches h type address) (ph_table f p s k) with
  | Some e => st = 1 /\ firstn (Z.to_nat s) ph' = e
  | None => st = 0
  end.
Proof.
  intros Hfd Hk. assert (Hs : s = 32 \/ s = 56)
    by (destruct (known_phentsize_cases _ _ Hk); lia).
  revert p w ph Hfd.
  induction k as [|k IH]; intros p w ph Hfd Hsize Hbad; [reflexivity|].
  cbn [fph_loop ph_table].
  rewrite (sys_read_ok fd s w f p Hfd) by (lia || (intros; apply Hbad; lia)).
  set (e := map (f_byte f) (zrange p s)).
  assert (Hlen : List.length e = Z.to_nat s)
    by (unfold e; rewrite length_map, zrange_length; reflexivity).
  assert (Hke : KNOWN_PHENTSIZE h (Z.of_nat (List.length e)) = true)
    by (rewrite Hlen, Z2Nat.id by lia; exact Hk).
  rewrite Z.eqb_refl. cbn [negb find].
  assert (Hm : ph_matches h type address (overwrite e ph) = ph_matches h type address e)
    by (apply ph_matches_app; exact Hke).
  unfold ph_matches in Hm at 1.
  destruct (ph_matches h type address e) eqn:Em.
  - destruct (ph_type h (overwrite e ph) =? type); [|discriminate].
    destruct (address =? WILDCARD); cbn [andb orb] in Hm; [|rewrite Hm];
      cbn iota; (split; [reflexivity|]); rewrite <- Hlen; apply firstn_overwrite.
  - assert (Hrest :
      (if ph_type h (overwrite e ph) =? type then
         if address =? WILDCARD then (1, overwrite e ph, set_fds w (fd_set fd (mkOfd f (p + s)) (w_fds w)))
         else if ph_contains h (overwrite e ph) address
              then (1, overwrite e ph, set_fds w (fd_set fd (mkOfd f (p + s)) (w_fds w)))
              else fph_loop k fd h s (overwrite e ph) type address
                     (set_fds w (fd_set fd (mkOfd f (p + s)) (w_fds w)))
       else fph_loop k fd h s (overwrite e ph) type address
              (set_fds w (fd_set fd (mkOfd f (p + s)) (w_fds w))))
      = fph_loop k fd h s (overwrite e ph) type address
          (set_fds w (fd_set fd (mkOfd f (p + s)) (w_fds w)))).
    { destruct (ph_type h (overwrite e ph) =? type); [|reflexivity].
      destruct (address =? WILDCARD); [discriminate|].
      cbn [orb andb] in Hm. rewrite Hm. reflexivity. }
    rewrite Hrest. apply IH.
    + cbn. apply fd_lookup_set.
    + lia.
    + intros i Hi. apply Hbad. lia.
Qed.

Lemma find_ext {A} (P Q : A -> bool) l :
  (forall x, P x = Q x) -> find P l = find Q l.
Proof.
  intros H. induction l as [|x l IH]; cbn; [reflexivity|]. rewrite H, IH. reflexivity.
Qed.

Lemma to_s64_small x : 0 <= x < 2 ^ 63 -> to_s64 x = x.
Proof.
  intros H. unfold to_s64, two64. rewrite Z.mod_small by lia.
  replace (x <? 2 ^ 63) with true by (symmetry; apply Z.ltb_lt; lia). reflexivity.
Qed.

Lemma to_s32_small x : 0 <= x < 2 ^ 31 -> to_s32 x = x.
Proof.
  intros H. unfold to_s32. rewrite Z.mod_small by lia.
  replace (x <? 2 ^ 31) with true by (symmetry; apply Z.ltb_lt; lia). reflexivity.
Qed.

Lemma elf_phoff_nonneg h : 0 <= elf_phoff h.
Proof.
  unfold elf_phoff. destruct (IS_CLASS64 h); apply ufield_bounds.
Qed.

Lemma elf_phnum_nonneg h : 0 <= elf_phnum h.
Proof.
  unfold elf_phnum. destruct (IS_CLASS64 h); apply ufield_bounds.
Qed.

Lemma ph_vaddr_bounds h e : 0 <= ph_vaddr h e < two64.
Proof.
  unfold ph_vaddr, two64. destruct (IS_CLASS64 h).
  - apply (ufield_bounds e 16 8).
  - pose proof (ufield_bounds e 8 4). cbn in *. lia.
Qed.

(** Under the size limits of the code, and with the program header table
    inside the file, readable, and at an offset the seek check accepts,
    find_program_header returns the first entry its test accepts. *)
Lemma find_program_header_scan fd h ph type address w o :
  fd_lookup fd (w_fds w) = Some o ->
  elf_phnum h < 65535 -> KNOWN_PHENTSIZE h (elf_phentsize h) = true ->
  elf_phoff h < 2 ^ 31 ->
  elf_phoff h + elf_phnum h * elf_phentsize h <= f_size (o_file o) ->
  (forall i, elf_phoff h <= i < elf_phoff h + elf_phnum h * elf_phentsize h ->
             f_bad (o_file o) i = false) ->
  let '(st, ph', _) := find_program_header fd h ph type address w in
  match find (ph_matches h type address)
          (ph_table (o_file o) (elf_phoff h) (elf_phentsize h) (Z.to_nat (elf_phnum h))) with
  | Some e => st = 1 /\ firstn (Z.to_nat (elf_phentsize h)) ph' = e
  | None => st = 0
  end.
Proof.
  intros Hfd Hnum Hk Hoff Hsize Hbad.
  pose proof (elf_phoff_nonneg h). pose proof (elf_phnum_nonneg h).
  unfold find_program_header.
  replace (elf_phnum h >=? 65535) with false by (symmetry; rewrite Z.geb_leb; apply Z.leb_gt; lia).
  rewrite Hk. cbn [negb].
  rewrite to_s64_small by lia.
  unfold sys_lseek. rewrite Hfd.
  replace (elf_phoff h <? 0) with false by (symmetry; apply Z.ltb_ge; lia).
  rewrite to_s32_small by lia.
  replace (elf_phoff h <? 0) with false by (symmetry; apply Z.ltb_ge; lia).
  apply fph_loop_scan.
  - cbn. apply fd_lookup_set.
  - exact Hk.
  - rewrite Z2Nat.id by lia. exact Hsize.
  - rewrite Z2Nat.id by lia. exact Hbad.
Qed.

(** ** C3: address containment *)

(** C3: for an address [A] other than the wildcard, find_program_header
    returns the first entry of the requested type with [vaddr < end] and
    [vaddr <= A <= end], where [end = vaddr + memsz] in [uint64_t], and
    reports not-found when there is none (program header table inside the
    file, readable, within the code's size limits and at an offset its seek
    check accepts); the test includes both endpoints of a non-empty,
    non-wrapping segment and rejects every address for [memsz = 0]. *)
Theorem find_program_header_containment fd h ph type address w o :
  fd_lookup fd (w_fds w) = Some o ->
  elf_phnum h < 65535 -> KNOWN_PHENTSIZE h (elf_phentsize h) = true ->
  elf_phoff h < 2 ^ 31 ->
  elf_phoff h + elf_phnum h * elf_phentsize h <= f_size (o_file o) ->
  (forall i, elf_phoff h <= i < elf_phoff h + elf_phnum h * elf_phentsize h ->
             f_bad (o_file o) i = false) ->
  0 <= address < WILDCARD ->
  (let '(st, ph', _) := find_program_header fd h ph type address w in
   match find (fun e => let vaddr := ph_vaddr h e in
                        let end_ := to_u64 (vaddr + ph_memsz h e) in
                        (ph_type h e =? type) && (vaddr <? end_)
                        && (vaddr <=? address) && (address <=? end_))
           (ph_table (o_file o) (elf_phoff h) (elf_phentsize h) (Z.to_nat (elf_phnum h))) with
   | Some e => st = 1 /\ firstn (Z.to_nat (elf_phentsize h)) ph' = e
   | None => st = 0
   end)
  /\ (forall e a, ph_memsz h e = 0 -> ph_contains h e a = false)
  /\ (forall e, 0 < ph_memsz h e -> ph_vaddr h e + ph_memsz h e < two64 ->
        ph_contains h e (ph_vaddr h e) = true
        /\ ph_contains h e (ph_vaddr h e + ph_memsz h e) = true
        /\ ph_contains h e (ph_vaddr h e + ph_memsz h e + 1) = false).
Proof.
  intros Hfd Hnum Hk Hoff Hsize Hbad Ha. split; [|split].
  - pose proof (find_program_header_scan fd h ph type address w o Hfd Hnum Hk Hoff Hsize Hbad)
      as Hs.
    rewrite (find_ext _ (ph_matches h type address)).
    + exact Hs.
    + intros e. unfold ph_matches, ph_contains.
      replace (address =? WILDCARD) with false by (symmetry; apply Z.eqb_neq; lia).
      cbn [orb]. rewrite !andb_assoc. reflexivity.
  - intros e a Hm. unfold ph_contains. rewrite Hm, Z.add_0_r.
    pose proof (ph_vaddr_bounds h e). unfold to_u64. rewrite Z.mod_small by lia.
    rewrite Z.ltb_irrefl. reflexivity.
  - intros e Hm Hw. pose proof (ph_vaddr_bounds h e).
    unfold ph_contains, to_u64. rewrite Z.mod_small by lia.
    repeat split; repeat (rewrite ?andb_true_iff, ?Z.ltb_lt, ?Z.leb_le);
      [lia .. |].
    apply andb_false_iff. right. apply Z.leb_gt. lia.
Qed.

Example load_segment_endpoints :
  lookup_load 4096 8192 4096 = 1 /\ lookup_load 4096 8192 12288 = 1
  /\ lookup_load 4096 8192 12289 = 0 /\ lookup_load 4096 8192 4095 = 0
  /\ lookup_load 4096 0 4096 = 0.
Proof. repeat split; vm_compute; reflexivity. Qed.

Lemma find_program_header_containment_witness :
  lookup_load 4096 8192 12288 = 1.
Proof.
  destruct (find_program_header_containment 3 (header_of (load_image 4096 8192))
              (repeat 0 56) PT_LOAD 12288 (world_of_image (load_image 4096 8192))
              (mkOfd (file_of_list (load_image 4096 8192)) 0))
    as [H _]; [concrete .. |].
  revert H. vm_compute. intros [H _]. exact H.
Defined.

Lemma xpath_entry_exact_offset_witness :
  xpath_entry 8 3 512 Runpaths (UINT64_MAX - 100) (world_of_image runpath_image)
  = Some (FReturn (- ENOEXEC), world_of_image runpath_image).
Proof.
  apply (proj1 (xpath_entry_exact_offset 8 3 512 Runpaths (UINT64_MAX - 100)
                  (world_of_image runpath_image) ltac:(concrete))).
  concrete.
Defined.

(** A DT_RUNPATH value that overflows when added to the string table's
    file offset 0x200 makes read_ldso_rpaths fail with [ENOEXEC]. *)
Example overflowing_runpath :
  run_rpaths (image64 [(DT_STRTAB, 512); (DT_RUNPATH, UINT64_MAX - 100); (0, 0)] [0])
    (world_of_image (image64 [(DT_STRTAB, 512); (DT_RUNPATH, UINT64_MAX - 100); (0, 0)] [0]))
  = Some (- ENOEXEC, None, None).
Proof. vm_compute. reflexivity. Qed.

Lemma add_xpaths_atomic_witness :
  get_cell (world_after (add_xpaths 8 3 512 Runpaths oom_world) oom_world) Runpaths
  = Some (7%nat, bytes_of_string "/a").
Proof.
  apply (add_xpaths_atomic 8 3 512 Runpaths oom_world (- ENOMEM)); concrete.
Defined.

(** ** What the scans leave unchanged *)

Lemma fd_lookup_set_other fd fd' o l :
  fd' <> fd -> fd_lookup fd (fd_set fd' o l) = fd_lookup fd l.
Proof.
  intros Hne. induction l as [|[k o'] l IH]; cbn.
  - replace (fd' =? fd) with false by (symmetry; apply Z.eqb_neq; exact Hne). reflexivity.
  - destruct (k =? fd') eqn:E; cbn.
    + apply Z.eqb_eq in E. subst k.
      replace (fd' =? fd) with false by (symmetry; apply Z.eqb_neq; exact Hne). reflexivity.
    + destruct (k =? fd); [reflexivity|exact IH].
Qed.

Lemma fd_file_set fd fd' o q w :
  fd_lookup fd' (w_fds w) = Some o ->
  fd_file fd (set_fds w (fd_set fd' (mkOfd (o_file o) q) (w_fds w)))
  = fd_file fd w.
Proof.
  intros Ho. unfold fd_file. cbn [w_fds set_fds].
  destruct (Z.eq_dec fd' fd) as [<-|Hne].
  - rewrite fd_lookup_set, Ho. reflexivity.
  - rewrite fd_lookup_set_other by exact Hne. reflexivity.
Qed.

Lemma sys_lseek_file fd' off w fd : fd_file fd (snd (sys_lseek fd' off w)) = fd_file fd w.
Proof.
  unfold sys_lseek. destruct (fd_lookup fd' (w_fds w)) as [o|] eqn:Ho; [|reflexivity].
  destruct (off <? 0); [reflexivity|].
  cbn [snd]. destruct o as [f p].
  exact (fd_file_set fd fd' (mkOfd f p) _ w Ho).
Qed.

Lemma sys_read_file fd' n w fd : fd_file fd (snd (sys_read fd' n w)) = fd_file fd w.
Proof.
  unfold sys_read. destruct (fd_lookup fd' (w_fds w)) as [o|] eqn:Ho; [|reflexivity].
  destruct existsb; [reflexivity|].
  cbn [snd]. destruct o as [f p].
  exact (fd_file_set fd fd' (mkOfd f p) _ w Ho).
Qed.

Lemma fph_loop_world k fd h s ph type address w c :
  let '(_, _, w') := fph_loop k fd h s ph type address w in
  fd_file fd w' = fd_file fd w /\ get_cell w' c = get_cell w c.
Proof.
  revert ph w. induction k as [|k IH]; intros ph w; [split; reflexivity|].
  cbn [fph_loop].
  destruct (sys_read fd s w) as [[st data] w1] eqn:E1.
  pose proof (sys_read_file fd s w fd) as Hf. rewrite E1 in Hf. cbn [snd] in Hf.
  cell_step E1 (sys_read_cell fd s w c).
  destruct (negb (st =? s)); [split; assumption|].
  destruct (ph_type h (overwrite data ph) =? type); [destruct (address =? WILDCARD);
    [split; assumption|destruct (ph_contains h (overwrite data ph) address); [split; assumption|]]|];
    (destruct (fph_loop k fd h s (overwrite data ph) type address w1) as [[st' ph'] w'] eqn:E2;
     pose proof (IH (overwrite data ph) w1) as Hi; rewrite E2 in Hi; destruct Hi; split; congruence).
Qed.

Lemma find_program_header_world fd h ph type address w c :
  let '(_, _, w') := find_program_header fd h ph type address w in
  fd_file fd w' = fd_file fd w /\ get_cell w' c = get_cell w c.
Proof.
  unfold find_program_header.
  destruct (elf_phnum h >=? 65535); [split; reflexivity|].
  destruct (negb (KNOWN_PHENTSIZE h (elf_phentsize h))); [split; reflexivity|].
  destruct (sys_lseek fd (to_s64 (elf_phoff h)) w) as [r w1] eqn:E1.
  pose proof (sys_lseek_file fd (to_s64 (elf_phoff h)) w fd) as Hf.
  rewrite E1 in Hf. cbn [snd] in Hf.
  cell_step E1 (sys_lseek_cell fd (to_s64 (elf_phoff h)) w c).
  destruct (to_s32 r <? 0); [split; assumption|].
  destruct (fph_loop (Z.to_nat (elf_phnum h)) fd h (elf_phentsize h) ph type address w1)
    as [[st ph'] w'] eqn:E2.
  pose proof (fph_loop_world (Z.to_nat (elf_phnum h)) fd h (elf_phentsize h) ph type address w1 c)
    as Hi. rewrite E2 in Hi. destruct Hi. split; congruence.
Qed.

(** ** Reading the dynamic section *)

Lemma sfield_app e r off n :
  (off + n <= List.length e)%nat -> sfield (e ++ r) off n = sfield e off n.
Proof. intros H. unfold sfield. rewrite ufield_app by exact H. reflexivity. Qed.

Lemma dyn_tag_app h e r :
  dyn_size_ok h (Z.of_nat (List.length e)) -> dyn_tag h (e ++ r) = dyn_tag h e.
Proof.
  intros [[E L]|[E L]]; unfold dyn_tag; rewrite E; apply sfield_app; lia.
Qed.

(** A FOREACH_DYNAMIC_ENTRY scan over [k] readable entries, none of which
    carries the tag [type], runs to its end without running its embedded
    code, and changes neither accumulator nor the file behind [fd]. *)
Lemma foreach_no_match {L : Type} k i fd h off s type body (l : L) w f :
  fd_file fd w = Some f -> dyn_size_ok h s ->
  0 <= off -> 0 <= i ->
  off + (i + Z.of_nat k) * s <= f_size f -> off + (i + Z.of_nat k) * s < 2 ^ 31 ->
  (forall j, off + i * s <= j < off + (i + Z.of_nat k) * s -> f_bad f j = false) ->
  Forall (fun d => dyn_tag h d <> type) (ph_table f (off + i * s) s k) ->
  exists w', foreach_dynamic_entry k i fd h off s type body l w = Some (FNext, l, w')
             /\ fd_file fd w' = Some f
             /\ (forall c, get_cell w' c = get_cell w c).
Proof.
  intros Hf Hs. assert (Hs' : s = 8 \/ s = 16) by (destruct Hs; lia).
  revert i w Hf.
  induction k as [|k IH]; intros i w Hf Hoff Hi Hsize Hlim Hbad Hall.
  { exists w. split; [reflexivity|split; [exact Hf|reflexivity]]. }
  cbn [foreach_dynamic_entry].
  cbn [ph_table] in Hall. inversion Hall as [|d ds Hd Hrest]; subst.
  unfold fd_file in Hf.
  destruct (fd_lookup fd (w_fds w)) as [[f0 p0]|] eqn:Ho; [|discriminate].
  cbn in Hf. injection Hf as ->.
  set (w1 := snd (fresh sizeof_DynamicEntry w)).
  change (fresh sizeof_DynamicEntry w) with (fst (fresh sizeof_DynamicEntry w), w1).
  set (de := fst (fresh sizeof_DynamicEntry w)).
  assert (Ho1 : fd_lookup fd (w_fds w1) = Some (mkOfd f p0)) by exact Ho.
  replace (to_s64 (to_u64 (off + i * s))) with (off + i * s).
  2:{ unfold to_u64, two64. rewrite Z.mod_small by lia. rewrite to_s64_small by lia. reflexivity. }
  unfold sys_lseek at 1. rewrite Ho1. cbn [o_file].
  replace (off + i * s <? 0) with false by (symmetry; apply Z.ltb_ge; lia).
  rewrite to_s32_small by lia.
  replace (off + i * s <? 0) with false by (symmetry; apply Z.ltb_ge; lia).
  set (w2 := set_fds w1 (fd_set fd (mkOfd f (off + i * s)) (w_fds w1))).
  rewrite (sys_read_ok fd s w2 f (off + i * s)) by
    (try (unfold w2; cbn; apply fd_lookup_set); try lia; intros; apply Hbad; lia).
  replace (s <? 0) with false by (symmetry; apply Z.ltb_ge; lia).
  set (e := map (f_byte f) (zrange (off + i * s) s)).
  assert (Hlen : List.length e = Z.to_nat s)
    by (unfold e; rewrite length_map, zrange_length; reflexivity).
  unfold overwrite. rewrite dyn_tag_app by (rewrite Hlen, Z2Nat.id by lia; exact Hs).
  replace (dyn_tag h e =? type) with false by (symmetry; apply Z.eqb_neq; exact Hd).
  cbn [negb].
  set (w3 := set_fds w2 (fd_set fd (mkOfd f (off + i * s + s)) (w_fds w2))).
  destruct (IH (i + 1) w3) as [w' [Hrun [Hf' Hc']]].
  - unfold fd_file, w3. cbn. rewrite fd_lookup_set. reflexivity.
  - exact Hoff.
  - lia.
  - lia.
  - lia.
  - intros j Hj. apply Hbad. lia.
  - replace (off + (i + 1) * s) with (off + i * s + s) by lia. exact Hrest.
  - exists w'. split; [exact Hrun|split; [exact Hf'|]].
    intros c. rewrite Hc'. destruct c; reflexivity.
Qed.

Lemma ph_table_length f p s k e : In e (ph_table f p s k) -> List.length e = Z.to_nat s.
Proof.
  revert p. induction k as [|k IH]; intros p Hin; cbn in Hin; [contradiction|].
  destruct Hin as [<-|Hin]; [|exact (IH _ Hin)].
  rewrite length_map, zrange_length. reflexivity.
Qed.

Lemma ph_offset_nonneg h e : 0 <= ph_offset h e.
Proof. unfold ph_offset. destruct (IS_CLASS64 h); apply ufield_bounds. Qed.

Lemma ph_filesz_nonneg h e : 0 <= ph_filesz h e.
Proof. unfold ph_filesz. destruct (IS_CLASS64 h); apply ufield_bounds. Qed.

(** The entry find_program_header returns decodes as the table entry. *)
Lemma ph_fields_of_prefix h e ph :
  KNOWN_PHENTSIZE h (Z.of_nat (List.length e)) = true ->
  firstn (List.length e) ph = e ->
  ph_offset h ph = ph_offset h e /\ ph_filesz h ph = ph_filesz h e
  /\ ph_vaddr h ph = ph_vaddr h e /\ ph_type h ph = ph_type h e.
Proof.
  intros Hk Hp. rewrite <- (firstn_skipn (List.length e) ph), Hp.
  destruct (ph_fields_app h e (skipn (List.length e) ph) Hk) as (T & O & V & F & _).
  repeat split; assumption.
Qed.

(** ** C9: no dynamic segment, or no string table, is not an error *)

(** C9: with a program header table inside the file and readable (within
    the code's limits, at an offset its seek check accepts), read_ldso_rpaths
    returns 0 and leaves [rpaths] and [runpaths] as they were when the table
    has no PT_DYNAMIC entry, and also when the dynamic segment's entries (a
    whole number of them, inside the file and readable) include no DT_STRTAB
    entry. *)
Theorem read_ldso_rpaths_no_paths fuel fd h w o :
  fd_lookup fd (w_fds w) = Some o ->
  (IS_CLASS32 h || IS_CLASS64 h) = true ->
  elf_phnum h < 65535 -> KNOWN_PHENTSIZE h (elf_phentsize h) = true ->
  elf_phoff h < 2 ^ 31 ->
  elf_phoff h + elf_phnum h * elf_phentsize h <= f_size (o_file o) ->
  (forall i, elf_phoff h <= i < elf_phoff h + elf_phnum h * elf_phentsize h ->
             f_bad (o_file o) i = false) ->
  let table := ph_table (o_file o) (elf_phoff h) (elf_phentsize h) (Z.to_nat (elf_phnum h)) in
  (find (ph_matches h PT_DYNAMIC WILDCARD) table = None ->
   exists w', read_ldso_rpaths fuel fd h w = Some (0, w')
              /\ w_rpaths w' = w_rpaths w /\ w_runpaths w' = w_runpaths w)
  /\ (forall e, find (ph_matches h PT_DYNAMIC WILDCARD) table = Some e ->
      let s := if IS_CLASS32 h then sizeof_DynamicEntry32 else sizeof_DynamicEntry64 in
      ph_filesz h e mod s = 0 ->
      ph_offset h e + ph_filesz h e <= f_size (o_file o) ->
      ph_offset h e + ph_filesz h e < 2 ^ 31 ->
      (forall j, ph_offset h e <= j < ph_offset h e + ph_filesz h e ->
                 f_bad (o_file o) j = false) ->
      Forall (fun d => dyn_tag h d <> DT_STRTAB)
        (ph_table (o_file o) (ph_offset h e) s (Z.to_nat (ph_filesz h e / s))) ->
      exists w', read_ldso_rpaths fuel fd h w = Some (0, w')
                 /\ w_rpaths w' = w_rpaths w /\ w_runpaths w' = w_runpaths w).
Proof.
  intros Hfd Hcls Hnum Hk Hoff Hsize Hbad table.
  unfold read_ldso_rpaths.
  destruct (fresh sizeof_ProgramHeader w) as [d0 w1] eqn:F1.
  destruct (fresh sizeof_ProgramHeader w1) as [s0 w2] eqn:F2.
  assert (Hfd2 : fd_lookup fd (w_fds w2) = Some o).
  { unfold fresh in F1, F2. injection F1 as _ <-. injection F2 as _ <-. exact Hfd. }
  assert (Hcw : w_rpaths w2 = w_rpaths w /\ w_runpaths w2 = w_runpaths w).
  { unfold fresh in F1, F2. injection F1 as _ <-. injection F2 as _ <-. split; reflexivity. }
  destruct Hcw as [Hcr Hcu].
  pose proof (find_program_header_scan fd h d0 PT_DYNAMIC WILDCARD w2 o
                Hfd2 Hnum Hk Hoff Hsize Hbad) as Hscan.
  pose proof (find_program_header_world fd h d0 PT_DYNAMIC WILDCARD w2 Rpaths) as Hw1.
  pose proof (find_program_header_world fd h d0 PT_DYNAMIC WILDCARD w2 Runpaths) as Hw2.
  destruct (find_program_header fd h d0 PT_DYNAMIC WILDCARD w2) as [[st dyn] w3] eqn:E.
  destruct Hw1 as [Hf3 Hr3], Hw2 as [_ Hu3].
  fold table in Hscan. split.
  - intros Hnone. rewrite Hnone in Hscan. subst st. cbn.
    exists w3. split; [reflexivity|]. cbn in Hr3, Hu3. split; congruence.
  - intros e He.
    set (s := if IS_CLASS32 h then sizeof_DynamicEntry32 else sizeof_DynamicEntry64).
    intros Hmod Hend Hlim Hbad2 Hall. rewrite He in Hscan.
    destruct Hscan as [-> Hpre].
    apply find_some in He as [Hin _].
    pose proof (ph_table_length _ _ _ _ _ Hin) as Hlen.
    assert (Hke : KNOWN_PHENTSIZE h (Z.of_nat (List.length e)) = true)
      by (rewrite Hlen, Z2Nat.id by (unfold KNOWN_PHENTSIZE in Hk; destruct (known_phentsize_cases _ _ Hk); lia); exact Hk).
    rewrite <- Hlen in Hpre.
    destruct (ph_fields_of_prefix h e dyn Hke Hpre) as (Ho & Hs & _ & _).
    cbn [Z.leb Z.compare]. rewrite Ho, Hs.
    fold s. rewrite Hmod. cbn [Z.eqb negb].
    pose proof (ph_offset_nonneg h e). pose proof (ph_filesz_nonneg h e).
    assert (Hsv : dyn_size_ok h s).
    { unfold s, dyn_size_ok, sizeof_DynamicEntry32, sizeof_DynamicEntry64.
      unfold IS_CLASS32, IS_CLASS64 in *.
      destruct (ELF_CLASS h =? 1) eqn:E1, (ELF_CLASS h =? 2) eqn:E2; cbn in Hcls |- *;
        try discriminate; [|left; split; reflexivity|right; split; reflexivity].
      apply Z.eqb_eq in E1, E2. lia. }
    assert (Hs0 : 0 < s) by (destruct Hsv; lia).
    assert (Hex : ph_filesz h e = s * (ph_filesz h e / s))
      by (apply Z.div_exact; lia).
    assert (Hfd3 : fd_file fd w3 = Some (o_file o)) by (rewrite Hf3; unfold fd_file; rewrite Hfd2; reflexivity).
    assert (Hq : 0 <= ph_filesz h e / s) by (apply Z.div_pos; lia).
    set (q := ph_filesz h e / s) in *. clearbody q s.
    destruct (foreach_no_match (Z.to_nat q) 0 fd h (ph_offset h e) s
                DT_STRTAB strtab_body WILDCARD w3 (o_file o) Hfd3 Hsv)
      as [w4 [Hrun [_ Hc4]]];
      rewrite ?Z2Nat.id by exact Hq; try lia;
      try (intros j Hj; apply Hbad2; lia).
    + rewrite Z.mul_0_l, Z.add_0_r. exact Hall.
    + rewrite Hrun. cbn. exists w4. split; [reflexivity|].
      change (w_rpaths w4) with (get_cell w4 Rpaths).
      change (w_runpaths w4) with (get_cell w4 Runpaths).
      rewrite (Hc4 Rpaths), (Hc4 Runpaths). cbn in *; split; congruence.
Qed.

Lemma read_ldso_rpaths_no_paths_witness :
  run_rpaths no_strtab_image (world_of_image no_strtab_image) = Some (0, None, None).
Proof.
  pose proof (read_ldso_rpaths_no_paths 8 3 (header_of no_strtab_image)
                (world_of_image no_strtab_image)
                (mkOfd (file_of_list no_strtab_image) 0)) as H.
  specialize (H ltac:(concrete) ltac:(concrete) ltac:(concrete) ltac:(concrete)
                ltac:(concrete) ltac:(concrete) ltac:(concrete)).
  apply proj2 in H.
  specialize (H (phdr64 PT_DYNAMIC 256 256 32 32) ltac:(concrete) ltac:(concrete)
                ltac:(concrete) ltac:(concrete) ltac:(concrete)).
  destruct H as (w' & Hr & Hrp & Hru).
  { apply Forall_forall. intros d Hd. vm_compute in Hd.
    repeat destruct Hd as [<- | Hd];
      [apply Z.eqb_neq; vm_compute; reflexivity .. | contradiction]. }
  unfold run_rpaths. rewrite Hr, Hrp, Hru. reflexivity.
Defined.

(** ** C6: what open_elf leaves behind *)

Lemma fd_above_free k l : fd_above l <= k -> fd_lookup k l = None.
Proof.
  unfold fd_above. induction l as [|[k' o] l IH]; cbn [fold_right fst fd_lookup];
    intros Hk; [reflexivity|].
  destruct (Z.eqb_spec k' k); [lia|]. apply IH. lia.
Qed.

Lemma lowest_free_from_spec n start l :
  0 <= start ->
  start <= lowest_free_from n start l /\ fd_lookup (lowest_free_from n start l) l = None.
Proof.
  revert start. induction n as [|n IH]; intros start Hs; cbn [lowest_free_from].
  - split; [lia|]. apply fd_above_free. lia.
  - destruct (fd_lookup start l) eqn:E.
    + destruct (IH (start + 1)) as [H1 H2]; [lia|]. split; [lia|exact H2].
    + split; [lia|exact E].
Qed.

Lemma lowest_free_spec l : 0 <= lowest_free l /\ fd_lookup (lowest_free l) l = None.
Proof. apply lowest_free_from_spec. lia. Qed.

Lemma fd_del_absent r l : fd_lookup r l = None -> fd_del r l = l.
Proof.
  unfold fd_del. induction l as [|[k o] l IH]; cbn; intros H; [reflexivity|].
  destruct (k =? r); [discriminate|]. cbn. f_equal. exact (IH H).
Qed.

Lemma fd_del_head r o l : fd_lookup r l = None -> fd_del r ((r, o) :: l) = l.
Proof.
  intros H. unfold fd_del. cbn. rewrite Z.eqb_refl. cbn. exact (fd_del_absent r l H).
Qed.

Lemma nth_map_seq {A} (g : nat -> A) n d i :
  (i < n)%nat -> nth i (map g (seq 0 n)) d = g i.
Proof.
  intros Hi. rewrite nth_indep with (d' := g 0%nat) by (rewrite length_map, length_seq; lia).
  rewrite map_nth, seq_nth by lia. reflexivity.
Qed.

Lemma nth_overwrite_bytes f eh0 i :
  (i < 64)%nat -> nth i (overwrite (map (f_byte f) (zrange 0 64)) eh0) 0 = f_byte f (Z.of_nat i).
Proof.
  intros Hi. unfold overwrite, zrange. rewrite map_map, app_nth1.
  2:{ rewrite length_map, length_seq. cbn. lia. }
  rewrite nth_map_seq by (cbn; lia). reflexivity.
Qed.

Lemma no_bad_read f k :
  k <= 64 -> (forall i, 0 <= i < 64 -> f_bad f i = false) ->
  existsb (f_bad f) (zrange 0 k) = false.
Proof.
  intros Hk Hb. destruct (existsb (f_bad f) (zrange 0 k)) eqn:E; [|reflexivity].
  apply existsb_exists in E as [i [Hi Hbi]]. apply in_zrange in Hi.
  rewrite Hb in Hbi by lia. discriminate.
Qed.

Lemma sys_close_head w fd o l :
  fd_lookup fd l = None ->
  sys_close fd (set_fds w ((fd, o) :: l)) = (0, set_fds (set_fds w ((fd, o) :: l)) l).
Proof.
  intros H. unfold sys_close. cbn [w_fds set_fds fd_lookup]. rewrite Z.eqb_refl.
  cbn [w_fds set_fds]. rewrite fd_del_head by exact H. reflexivity.
Qed.

(** C6: what open_elf leaves behind. A negative result leaves the
    descriptor table as it was: when the open succeeded and a later step
    failed, the new descriptor has been closed before the error is returned.
    A non-negative result is a descriptor newly opened on the file at
    [t_path], positioned after its 64 header bytes, and the caller's buffer
    then starts with those bytes. For a file whose first 64 bytes can be
    read, the result is [-ENOEXEC] when the file is shorter than 64 bytes,
    lacks the magic 0x7F 'E' 'L' 'F' or has a class byte other than 1
    (32-bit) and 2 (64-bit), and a descriptor otherwise. Failed opens set a
    positive errno. *)
Theorem open_elf_contract t_path eh0 w :
  (forall p e, w_fs w p = Some (NErr e) -> 0 < e) ->
  let '(r, eh, w') := open_elf t_path eh0 w in
  (r < 0 -> w_fds w' = w_fds w)
  /\ (0 <= r -> exists f, w_fs w t_path = Some (NFile f)
                 /\ fd_lookup r (w_fds w) = None
                 /\ w_fds w' = (r, mkOfd f 64) :: w_fds w
                 /\ eh = overwrite (map (f_byte f) (zrange 0 64)) eh0)
  /\ (forall f, w_fs w t_path = Some (NFile f) ->
      (forall i, 0 <= i < 64 -> f_bad f i = false) ->
      let malformed := f_size f < 64 \/ f_byte f 0 <> 127 \/ f_byte f 1 <> 69
                       \/ f_byte f 2 <> 76 \/ f_byte f 3 <> 70
                       \/ (f_byte f 4 <> 1 /\ f_byte f 4 <> 2) in
      (malformed -> r = - ENOEXEC) /\ (~ malformed -> 0 <= r)).
Proof.
  intros Hpos. unfold open_elf, sys_open.
  destruct (w_fs w t_path) as [[f|e]|] eqn:Hp.
  2:{ cbn. specialize (Hpos _ _ Hp). repeat split; intros; try lia; discriminate. }
  2:{ cbn. repeat split; intros; try (unfold ENOENT in *; lia); discriminate. }
  destruct (lowest_free_spec (w_fds w)) as [Hn Hfree].
  set (fd := lowest_free (w_fds w)) in *.
  replace (fd <? 0) with false by (symmetry; apply Z.ltb_ge; exact Hn).
  unfold sys_read. cbn [w_fds set_fds fd_lookup]. rewrite Z.eqb_refl. cbn [o_file o_pos].
  set (k := Z.max 0 (Z.min sizeof_ElfHeader (f_size f - 0))).
  assert (Hk : k <= 64) by (unfold k, sizeof_ElfHeader; lia).
  destruct (existsb (f_bad f) (zrange 0 k)) eqn:Eb.
  - cbn -[fd_del]. unfold sys_close. cbn [w_fds set_errno set_fds fd_lookup]. rewrite Z.eqb_refl.
    cbn [w_fds set_fds]. rewrite fd_del_head by exact Hfree.
    repeat split; intros; try (unfold EIO in *; lia);
      match goal with H : Some _ = Some _ |- _ => injection H as <- end;
      rewrite no_bad_read in Eb by assumption; discriminate.
  - cbn [fd_set]. rewrite Z.eqb_refl.
    replace (k <? 0) with false by (symmetry; apply Z.ltb_ge; unfold k; lia).
    set (l := w_fds w) in *.
    set (w1 := set_fds w ((fd, {| o_file := f; o_pos := 0 |}) :: l)).
    destruct (Z.ltb_spec (f_size f) 64) as [Hsz|Hsz].
    + replace (k <? sizeof_ElfHeader) with true
        by (symmetry; apply Z.ltb_lt; unfold k, sizeof_ElfHeader; lia).
      cbn [orb]. replace (- ENOEXEC <? 0) with true by reflexivity.
      rewrite sys_close_head by exact Hfree. cbv beta iota zeta.
      repeat split; intros; try (unfold ENOEXEC in *; lia).
      match goal with H : Some _ = Some _ |- _ => injection H as <- end.
      match goal with H : ~ _ |- _ => exfalso; apply H; left; exact Hsz end.
    + assert (Hk64 : k = 64) by (unfold k, sizeof_ElfHeader; lia).
      rewrite Hk64. replace (64 <? sizeof_ElfHeader) with false by reflexivity.
      unfold IS_CLASS32, IS_CLASS64, ELF_CLASS, ELF_IDENT.
      rewrite !nth_overwrite_bytes by lia. cbn [Z.of_nat Pos.of_succ_nat Pos.succ].
      rewrite sys_close_head by exact Hfree.
      destruct (Z.eqb_spec (f_byte f 0) 127), (Z.eqb_spec (f_byte f 1) 69),
        (Z.eqb_spec (f_byte f 2) 76), (Z.eqb_spec (f_byte f 3) 70),
        (Z.eqb_spec (f_byte f 4) 1), (Z.eqb_spec (f_byte f 4) 2);
        cbn [orb andb negb];
        try replace (- ENOEXEC <? 0) with true by reflexivity;
        try replace (0 <? 0) with false by reflexivity;
        cbv beta iota zeta;
        (repeat split); intros;
        try (match goal with H : Some _ = Some _ |- _ => injection H as <- end);
        try (unfold ENOEXEC in *; lia);
        try (exists f; repeat split; [exact Hfree]);
        match goal with H : ~ _ |- _ => exfalso; apply H; lia end.
Qed.

Lemma motd_fs_errno p e : motd_fs p = Some (NErr e) -> 0 < e.
Proof.
  unfold motd_fs. destruct (String.eqb p "/etc/motd"); [discriminate|].
  destruct (String.eqb p "/root/a.out"); [discriminate|].
  destruct (String.eqb p "/secret"); [|discriminate].
  intros H. injection H as <-. lia.
Qed.

Lemma open_elf_contract_witness :
  let '(r, _, w') := open_elf "/etc/motd" [] motd_world in
  r = - ENOEXEC /\ w_fds w' = w_fds motd_world.
Proof.
  pose proof (open_elf_contract "/etc/motd" [] motd_world motd_fs_errno) as H.
  revert H. destruct (open_elf "/etc/motd" [] motd_world) as [[r eh] w'].
  intros (H1 & _ & H3).
  destruct (H3 motd_file eq_refl ltac:(concrete)) as [Hm _].
  assert (Hr : r = - ENOEXEC) by (apply Hm; left; vm_compute; reflexivity).
  split; [exact Hr | apply H1; rewrite Hr; vm_compute; reflexivity].
Defined.

(** ** C8: when is_host_elf answers true *)

Lemma machine_listed_iff l m : machine_listed l m = true <-> In m (c_string l).
Proof.
  induction l as [|x l IH]; cbn; [split; [discriminate|tauto]|].
  destruct (Z.eqb_spec x 0); [cbn; split; [discriminate|tauto]|].
  destruct (Z.eqb_spec x m); cbn.
  - split; [intros _; left; exact e|reflexivity].
  - rewrite IH. split; [tauto|]. intros [H|H]; [congruence|exact H].
Qed.

(** Once resolved, the static flag says whether the variable is set. *)
Lemma resolve_force_foreign_flag w :
  (w_force_foreign w = -1 \/ w_force_foreign w = (if w_env_force w then 1 else 0)) ->
  (w_force_foreign (resolve_force_foreign w) >? 0) = w_env_force w.
Proof.
  unfold resolve_force_foreign. intros [H|H]; rewrite H.
  - cbn. destruct (w_env_force w); reflexivity.
  - destruct (w_env_force w); cbn; rewrite H; reflexivity.
Qed.

(** C8: is_host_elf answers true exactly when PROOT_FORCE_FOREIGN_BINARY
    is unset, the tracee runs under QEMU, and open_elf accepts the file
    (it opens, has a full header, the ELF magic and a known class) with a
    machine code found in [host_elf_machine] before its zero terminator.
    Otherwise, in particular when the variable is set or the file cannot be
    opened or is not ELF, it answers false; its result is a [bool], with no
    error value. The static flag is either not computed yet or agrees with
    the environment. *)
Theorem is_host_elf_iff host_elf_machine qemu host_path w :
  (w_force_foreign w = -1 \/ w_force_foreign w = (if w_env_force w then 1 else 0)) ->
  fst (is_host_elf host_elf_machine qemu host_path w) = true
  <-> w_env_force w = false /\ qemu = true
      /\ let '(eh0, w1) := fresh 64 (resolve_force_foreign w) in
         let '(fd, eh, _) := open_elf host_path eh0 w1 in
         0 <= fd /\ In (elf_machine eh) (c_string host_elf_machine).
Proof.
  intros Hff. unfold is_host_elf.
  rewrite (resolve_force_foreign_flag w Hff).
  destruct (w_env_force w), qemu; cbn [orb negb fst];
    try (split; [discriminate|intros (H1 & H2 & _); discriminate]).
  change (Z.to_nat sizeof_ElfHeader) with 64%nat.
  destruct (fresh 64 (resolve_force_foreign w)) as [eh0 w1].
  destruct (open_elf host_path eh0 w1) as [[fd eh] w2].
  destruct (Z.ltb_spec fd 0).
  - cbn [fst]. split; [discriminate|]. intros (_ & _ & H1 & _). lia.
  - destruct (sys_close fd w2) as [z w3]. cbn [fst].
    rewrite machine_listed_iff. split; [intros H1; repeat split; auto|tauto].
Qed.

Lemma is_host_elf_iff_witness :
  fst (is_host_elf x86_64_machines true "/root/a.out" motd_world) = true.
Proof.
  apply (is_host_elf_iff x86_64_machines true "/root/a.out" motd_world
           ltac:(left; reflexivity)).
  split; [reflexivity|split; [reflexivity|]].
  vm_compute. split; [intros Hc; discriminate Hc | left; reflexivity].
Defined.

(** With PROOT_FORCE_FOREIGN_BINARY set, the same host executable is
    reported as foreign; a text file, a refused open and a missing file are
    foreign too, and so is an ARM executable. *)
Example is_host_elf_cases :
  fst (is_host_elf x86_64_machines true "/root/a.out" forced_world) = false
  /\ fst (is_host_elf x86_64_machines false "/root/a.out" motd_world) = false
  /\ fst (is_host_elf x86_64_machines true "/etc/motd" motd_world) = false
  /\ fst (is_host_elf x86_64_machines true "/secret" motd_world) = false
  /\ fst (is_host_elf x86_64_machines true "/missing" motd_world) = false
  /\ fst (is_host_elf [40; 0] true "/root/a.out" motd_world) = false.
Proof. repeat split; vm_compute; reflexivity. Qed.

(** ** add_xpaths reads back the string stored in the file *)

Lemma sys_read_avail fd m w f p :
  fd_lookup fd (w_fds w) = Some (mkOfd f p) ->
  (forall i, p <= i < p + Z.max 0 (Z.min m (f_size f - p)) -> f_bad f i = false) ->
  sys_read fd m w
  = (Z.max 0 (Z.min m (f_size f - p)),
     map (f_byte f) (zrange p (Z.max 0 (Z.min m (f_size f - p)))),
     set_fds w (fd_set fd (mkOfd f (p + Z.max 0 (Z.min m (f_size f - p)))) (w_fds w))).
Proof.
  intros Hfd Hbad. unfold sys_read. rewrite Hfd. cbn [o_file o_pos].
  destruct (existsb (f_bad f) _) eqn:Eb; [|reflexivity].
  apply existsb_exists in Eb as [i [Hi Hb]].
  apply in_zrange in Hi. rewrite Hbad in Hb by lia. discriminate.
Qed.

Lemma map_seq_offset (g : nat -> Z) s t B :
  map g (seq (s + t) B) = map (fun i => g (s + i)%nat) (seq t B).
Proof.
  revert t. induction B as [|B IH]; intros t; cbn; [reflexivity|].
  f_equal. rewrite <- IH. f_equal. f_equal. lia.
Qed.

Lemma zrange_app p a b :
  0 <= a -> 0 <= b -> zrange p (a + b) = zrange p a ++ zrange (p + a) b.
Proof.
  intros Ha Hb. unfold zrange. rewrite Z2Nat.inj_add by lia.
  rewrite seq_app, map_app. f_equal.
  replace (0 + Z.to_nat a)%nat with (Z.to_nat a + 0)%nat by lia. rewrite map_seq_offset.
  apply map_ext. intros i. lia.
Qed.

Lemma zrange_cons p b : 0 < b -> zrange p b = p :: zrange (p + 1) (b - 1).
Proof.
  intros Hb. replace b with (1 + (b - 1)) at 1 by lia.
  rewrite zrange_app by lia. change (zrange p 1) with [p + Z.of_nat 0].
  rewrite Z.add_0_r. reflexivity.
Qed.

Lemma map_zrange_nonzero g p k lo hi :
  (forall i, lo <= i < hi -> g i <> 0) -> lo <= p -> p + k <= hi ->
  ~ In 0 (map g (zrange p k)).
Proof.
  intros Hnz Hlo Hhi Hin. apply in_map_iff in Hin as [i [Hi Hr]].
  apply in_zrange in Hr. apply (Hnz i); [lia|exact Hi].
Qed.

Lemma strnlen_app_zero a b m :
  ~ In 0 a -> (List.length a < m)%nat -> strnlen (a ++ 0 :: b) m = List.length a.
Proof.
  revert m. induction a as [|x a IH]; intros m Hn Hl; destruct m as [|m]; cbn in *; try lia.
  destruct (Z.eqb_spec x 0); [tauto|]. f_equal. apply IH; [tauto|lia].
Qed.

Lemma strnlen_nonzero a b :
  ~ In 0 a -> strnlen (a ++ b) (List.length a) = List.length a.
Proof.
  induction a as [|x a IH]; intros Hn; cbn in *; [destruct b; reflexivity|].
  destruct (Z.eqb_spec x 0); [tauto|]. f_equal. apply IH. tauto.
Qed.

Lemma c_string_app_zero a b : ~ In 0 a -> c_string (a ++ 0 :: b) = a.
Proof.
  induction a as [|x a IH]; intros Hn; cbn in *; [reflexivity|].
  destruct (Z.eqb_spec x 0); [tauto|]. f_equal. apply IH. tauto.
Qed.

Lemma fresh_length n w : List.length (fst (fresh n w)) = n.
Proof. unfold fresh. cbn. rewrite length_map, length_seq. reflexivity. Qed.

(** The read loop of add_xpaths, entered with the first [L] bytes of a
    string of [n] non-NUL bytes stored at [off] and followed by a NUL
    inside the file, ends with a buffer whose C string is that string. *)
Lemma xpaths_loop_string fuel fd f off n L w :
  fd_lookup fd (w_fds w) = Some (mkOfd f (off + L)) ->
  0 <= off -> 0 <= L <= n -> off + n < f_size f ->
  (forall i, off <= i < f_size f -> f_bad f i = false) ->
  (forall i, off <= i < off + n -> f_byte f i <> 0) -> f_byte f (off + n) = 0 ->
  (forall m, w_oom w m = false) ->
  (n - L) / 1024 < Z.of_nat fuel ->
  exists paths w', xpaths_loop fuel fd (map (f_byte f) (zrange off L)) L w
                   = Some (LDone paths n, w')
                   /\ c_string paths = map (f_byte f) (zrange off n)
                   /\ fd_file fd w' = Some f
                   /\ (forall m, w_oom w' m = false).
Proof.
  revert L w. induction fuel as [|fuel IH]; intros L w Hfd Hoff HL Hend Hbad Hnz Hz Hoom Hfuel.
  { cbn in Hfuel. assert (0 <= (n - L) / 1024) by (apply Z.div_pos; lia). lia. }
  cbn [xpaths_loop]. unfold talloc_try. rewrite Hoom. cbn zeta.
  set (w1 := set_nalloc w (S (w_nalloc w))).
  destruct (fresh 1024 w1) as [more w2] eqn:E2.
  assert (Hmore : List.length more = 1024%nat)
    by (pose proof (fresh_length 1024 w1) as H; rewrite E2 in H; exact H).
  assert (Hfd2 : fd_lookup fd (w_fds w2) = Some (mkOfd f (off + L)))
    by (unfold fresh in E2; injection E2 as _ <-; exact Hfd).
  assert (Hoom2 : forall m, w_oom w2 m = false)
    by (unfold fresh in E2; injection E2 as _ <-; exact Hoom).
  set (k := Z.max 0 (Z.min 1024 (f_size f - (off + L)))).
  assert (Hk : 0 < k <= 1024) by (unfold k; lia).
  rewrite (sys_read_avail fd 1024 w2 f (off + L) Hfd2) by (intros; apply Hbad; lia).
  fold k. replace (k <? 0) with false by (symmetry; apply Z.ltb_ge; lia).
  set (P := map (f_byte f) (zrange off L)).
  assert (HP : List.length P = Z.to_nat L) by (unfold P; rewrite length_map, zrange_length; reflexivity).
  rewrite firstn_app, HP, Nat.sub_diag, firstn_O, app_nil_r, firstn_all2 by lia.
  rewrite skipn_app, HP, Nat.sub_diag, skipn_O, skipn_all2 by lia. cbn [app].
  rewrite skipn_app, HP, Nat.sub_diag, skipn_O, skipn_all2 by lia. cbn [app].
  set (data := map (f_byte f) (zrange (off + L) k)).
  assert (Hdl : List.length data = Z.to_nat k) by (unfold data; rewrite length_map, zrange_length; reflexivity).
  destruct (Z.ltb_spec (n - L) k) as [HA|HB].
  - (* the NUL is in this chunk *)
    assert (Hsplit : data = map (f_byte f) (zrange (off + L) (n - L))
                            ++ 0 :: map (f_byte f) (zrange (off + n + 1) (k - (n - L) - 1))).
    { unfold data. replace k with ((n - L) + (k - (n - L))) at 1 by lia.
      rewrite zrange_app, map_app by lia. f_equal.
      rewrite zrange_cons by lia. cbn [map]. replace (off + L + (n - L)) with (off + n) by lia.
      rewrite Hz. reflexivity. }
    assert (HnzD : ~ In 0 (map (f_byte f) (zrange (off + L) (n - L))))
      by (apply (map_zrange_nonzero _ _ _ off (off + n)); [exact Hnz|lia|lia]).
    assert (HS : P ++ map (f_byte f) (zrange (off + L) (n - L)) = map (f_byte f) (zrange off n)).
    { unfold P. rewrite <- map_app, <- zrange_app by lia. f_equal. f_equal. lia. }
    unfold overwrite. rewrite Hsplit, <- app_assoc. cbn [app].
    rewrite strnlen_app_zero; cycle 1.
    { exact HnzD. }
    { rewrite length_map, zrange_length. lia. }
    rewrite length_map, zrange_length, Z2Nat.id by lia.
    replace (L + (n - L) =? L + 1024) with false by (symmetry; apply Z.eqb_neq; lia).
    eexists _, _. split; [f_equal; f_equal; f_equal; lia|].
    split; [|split].
    + rewrite app_assoc, HS. apply c_string_app_zero.
      apply (map_zrange_nonzero _ _ _ off (off + n)); [exact Hnz|lia|lia].
    + unfold fd_file. cbn [w_fds set_fds]. rewrite fd_lookup_set. reflexivity.
    + exact Hoom2.
  - (* a full chunk of non-NUL bytes *)
    assert (Hk1024 : k = 1024) by (unfold k in *; lia).
    assert (HnzD : ~ In 0 data)
      by (apply (map_zrange_nonzero _ _ _ off (off + n)); [exact Hnz|lia|lia]).
    unfold overwrite. rewrite Hdl, Hk1024, skipn_all2 by lia. rewrite app_nil_r.
    assert (Hsl : strnlen data 1024 = 1024%nat).
    { pose proof (strnlen_nonzero data [] HnzD) as H.
      rewrite app_nil_r, Hdl, Hk1024 in H. exact H. }
    rewrite Hsl. change (Z.of_nat 1024) with 1024. rewrite Z.eqb_refl.
    replace (P ++ data) with (map (f_byte f) (zrange off (L + 1024))).
    2:{ unfold P, data. rewrite Hk1024, <- map_app, <- zrange_app by lia. reflexivity. }
    apply IH.
    + cbn [w_fds set_fds]. rewrite fd_lookup_set. f_equal. f_equal. lia.
    + exact Hoff.
    + lia.
    + exact Hend.
    + exact Hbad.
    + exact Hnz.
    + exact Hz.
    + exact Hoom2.
    + replace (n - L) with (1 * 1024 + (n - (L + 1024))) in Hfuel by lia.
      rewrite Z.div_add_l in Hfuel by lia. lia.
Qed.

(** add_xpaths on a stored C string (see X1 below). *)
Lemma add_xpaths_string fuel fd offset c w f n :
  fd_file fd w = Some f ->
  0 <= offset < 2 ^ 31 -> 0 <= n -> offset + n < f_size f ->
  (forall i, offset <= i < f_size f -> f_bad f i = false) ->
  (forall i, offset <= i < offset + n -> f_byte f i <> 0) -> f_byte f (offset + n) = 0 ->
  (forall m, w_oom w m = false) ->
  n / 1024 < Z.of_nat fuel ->
  exists b w', add_xpaths fuel fd offset c w = Some (0, w')
    /\ get_cell w' c
       = Some (b, match get_cell w c with
                  | None => map (f_byte f) (zrange offset n)
                  | Some (_, old) => old ++ [58] ++ map (f_byte f) (zrange offset n)
                  end)
    /\ fd_file fd w' = Some f.
Proof.
  intros Hf Hoff Hn Hend Hbad Hnz Hz Hoom Hfuel.
  unfold add_xpaths. rewrite to_s64_small by lia.
  unfold fd_file in Hf. destruct (fd_lookup fd (w_fds w)) as [o|] eqn:Ho; [|discriminate].
  injection Hf as Hf.
  destruct (sys_lseek fd offset w) as [r w1] eqn:E1.
  cell_step E1 (sys_lseek_cell fd offset w c).
  unfold sys_lseek in E1. rewrite Ho in E1.
  replace (offset <? 0) with false in E1 by (symmetry; apply Z.ltb_ge; lia).
  injection E1 as <- Ew1.
  replace (to_s32 offset <? 0) with false
    by (rewrite to_s32_small by lia; symmetry; apply Z.ltb_ge; lia).
  destruct (xpaths_loop_string fuel fd f offset n 0 w1) as (paths & w2 & Hl & Hs & Hf2 & Hoom2).
  { rewrite <- Ew1. cbn [w_fds set_fds]. rewrite fd_lookup_set, Hf, Z.add_0_r. reflexivity. }
  all: try lia; try assumption.
  { rewrite <- Ew1. exact Hoom. }
  { rewrite Z.sub_0_r. exact Hfuel. }
  change (map (f_byte f) (zrange offset 0)) with (@nil Z) in Hl. rewrite Hl.
  pose proof (xpaths_loop_cell _ _ _ _ _ _ _ c Hl) as Hc2.
  rewrite <- Hc, <- Hc2. unfold talloc_try. rewrite Hoom2. cbn zeta.
  destruct (get_cell w2 c) as [[b0 old]|];
    eexists _, _; (split; [reflexivity|]); rewrite get_set_cell, Hs;
    (split; [reflexivity|]); unfold fd_file in *; destruct c; exact Hf2.
Qed.

(** X1: add_xpaths at an offset holding a string of [n] non-NUL bytes
    followed by a NUL (inside a readable file, all allocations succeeding)
    succeeds and merges exactly that string: it becomes the accumulator's
    contents when the accumulator is NULL, and follows the old contents and
    a ':' otherwise, however many 1024-byte chunks the string spans. *)
Theorem add_xpaths_reads_string fuel fd offset c w f n :
  fd_file fd w = Some f ->
  0 <= offset < 2 ^ 31 -> 0 <= n -> offset + n < f_size f ->
  (forall i, offset <= i < f_size f -> f_bad f i = false) ->
  (forall i, offset <= i < offset + n -> f_byte f i <> 0) -> f_byte f (offset + n) = 0 ->
  (forall m, w_oom w m = false) ->
  n / 1024 < Z.of_nat fuel ->
  exists b w', add_xpaths fuel fd offset c w = Some (0, w')
    /\ get_cell w' c
       = Some (b, match get_cell w c with
                  | None => map (f_byte f) (zrange offset n)
                  | Some (_, old) => old ++ [58] ++ map (f_byte f) (zrange offset n)
                  end)
    /\ fd_file fd w' = Some f.
Proof. exact (add_xpaths_string fuel fd offset c w f n). Qed.

Lemma add_xpaths_reads_string_witness :
  exists b w', add_xpaths 8 3 0 Runpaths (world_with no_files long_path_file) = Some (0, w')
               /\ get_cell w' Runpaths = Some (b, repeat 47 1500).
Proof.
  destruct (add_xpaths_reads_string 8 3 0 Runpaths (world_with no_files long_path_file)
              long_path_file 1500 eq_refl ltac:(lia) ltac:(lia) ltac:(vm_compute; reflexivity)
              ltac:(intros; reflexivity))
    as (b & w' & H1 & H2 & _).
  - intros i Hi. cbn [long_path_file file_of_list f_byte].
    rewrite app_nth1 by (rewrite repeat_length; lia).
    rewrite nth_indep with (d' := 47) by (rewrite repeat_length; lia).
    rewrite nth_repeat. discriminate.
  - vm_compute. reflexivity.
  - intros m. reflexivity.
  - vm_compute. reflexivity.
  - exists b, w'. split; [exact H1|]. rewrite H2. vm_compute. reflexivity.
Defined.

(** ** is_host_elf leaves no descriptor open *)

(** open_elf either leaves the descriptor table as it was or adds one new
    descriptor to it. *)
Lemma open_elf_fds t_path eh0 w :
  (forall p e, w_fs w p = Some (NErr e) -> 0 < e) ->
  let '(r, _, w') := open_elf t_path eh0 w in
  (r < 0 -> w_fds w' = w_fds w)
  /\ (0 <= r -> fd_lookup r (w_fds w) = None /\ exists o, w_fds w' = (r, o) :: w_fds w).
Proof.
  intros Hpos. unfold open_elf, sys_open.
  destruct (w_fs w t_path) as [[f|e]|] eqn:Hp.
  2:{ cbn. specialize (Hpos _ _ Hp). split; intros; [reflexivity|lia]. }
  2:{ cbn. split; intros; [reflexivity|unfold ENOENT in *; lia]. }
  destruct (lowest_free_spec (w_fds w)) as [Hn Hfree].
  set (fd := lowest_free (w_fds w)) in *.
  replace (fd <? 0) with false by (symmetry; apply Z.ltb_ge; exact Hn).
  unfold sys_read. cbn [w_fds set_fds fd_lookup]. rewrite Z.eqb_refl. cbn [o_file o_pos].
  set (k := Z.max 0 (Z.min sizeof_ElfHeader (f_size f - 0))).
  destruct (existsb (f_bad f) (zrange 0 k)).
  - cbn -[fd_del]. unfold sys_close. cbn [w_fds set_errno set_fds fd_lookup]. rewrite Z.eqb_refl.
    cbn [w_fds set_fds]. rewrite fd_del_head by exact Hfree.
    split; intros; [reflexivity|unfold EIO in *; lia].
  - cbn [fd_set]. rewrite Z.eqb_refl.
    match goal with
    | |- context [if ?st <? 0 then let '(_, _) := sys_close _ _ in _ else _] =>
        destruct (Z.ltb_spec st 0)
    end.
    + rewrite sys_close_head by exact Hfree. cbv beta iota zeta.
      split; intros; [reflexivity|lia].
    + cbv beta iota zeta. split; intros; [lia|]. split; [exact Hfree|]. eexists. reflexivity.
Qed.

(** X2: is_host_elf closes the descriptor it opens: whatever it answers,
    the descriptor table afterwards is the one it was called with (failed
    opens setting a positive errno). *)
Theorem is_host_elf_no_leak host_elf_machine qemu host_path w :
  (forall p e, w_fs w p = Some (NErr e) -> 0 < e) ->
  w_fds (snd (is_host_elf host_elf_machine qemu host_path w)) = w_fds w.
Proof.
  intros Hpos. unfold is_host_elf.
  assert (Hr : w_fds (resolve_force_foreign w) = w_fds w /\ w_fs (resolve_force_foreign w) = w_fs w)
    by (unfold resolve_force_foreign; destruct (w_force_foreign w <? 0); split; reflexivity).
  destruct Hr as [Hr1 Hr2].
  destruct ((w_force_foreign (resolve_force_foreign w) >? 0) || negb qemu); [exact Hr1|].
  destruct (fresh (Z.to_nat sizeof_ElfHeader) (resolve_force_foreign w)) as [eh0 w1] eqn:F.
  assert (Hw1 : w_fds w1 = w_fds w /\ w_fs w1 = w_fs w)
    by (unfold fresh in F; injection F as _ <-; split; assumption).
  destruct Hw1 as [Hw1 Hs1].
  pose proof (open_elf_fds host_path eh0 w1) as Ho.
  destruct (open_elf host_path eh0 w1) as [[fd eh] w2].
  destruct Ho as [Hneg Hnn]; [rewrite Hs1; exact Hpos|].
  destruct (Z.ltb_spec fd 0).
  - cbn. rewrite Hneg by lia. exact Hw1.
  - destruct (Hnn ltac:(lia)) as [Hfree [o Ho]].
    unfold sys_close. rewrite Ho. cbn [fd_lookup]. rewrite Z.eqb_refl. cbn -[fd_del].
    rewrite fd_del_head by exact Hfree. exact Hw1.
Qed.

Lemma is_host_elf_no_leak_witness :
  w_fds (snd (is_host_elf x86_64_machines true "/root/a.out" motd_world)) = w_fds motd_world
  /\ w_fds (snd (is_host_elf x86_64_machines true "/etc/motd" motd_world)) = w_fds motd_world.
Proof.
  split; apply is_host_elf_no_leak; exact motd_fs_errno.
Defined.

(** ** The force-foreign flag of is_host_elf is read once *)

Lemma sys_open_env p w b :
  sys_open p (set_env_force w b) = (fst (sys_open p w), set_env_force (snd (sys_open p w)) b).
Proof. unfold sys_open. cbn. destruct (w_fs w p) as [[f|e]|]; reflexivity. Qed.

Lemma sys_read_env fd n w b :
  sys_read fd n (set_env_force w b)
  = (fst (sys_read fd n w), set_env_force (snd (sys_read fd n w)) b).
Proof.
  unfold sys_read. cbn. destruct (fd_lookup fd (w_fds w)); [destruct existsb|]; reflexivity.
Qed.

Lemma sys_close_env fd w b :
  sys_close fd (set_env_force w b)
  = (fst (sys_close fd w), set_env_force (snd (sys_close fd w)) b).
Proof. unfold sys_close. cbn. destruct (fd_lookup fd (w_fds w)); reflexivity. Qed.

Lemma open_elf_env p eh0 w b :
  open_elf p eh0 (set_env_force w b)
  = (fst (open_elf p eh0 w), set_env_force (snd (open_elf p eh0 w)) b).
Proof.
  unfold open_elf. rewrite sys_open_env.
  destruct (sys_open p w) as [fd w1]. cbn [fst snd].
  destruct (fd <? 0); [reflexivity|].
  rewrite sys_read_env. destruct (sys_read fd sizeof_ElfHeader w1) as [[st data] w2].
  cbn [fst snd w_errno set_env_force].
  match goal with |- context [if ?t <? 0 then _ else _] => destruct (t <? 0) end;
    [|reflexivity].
  rewrite sys_close_env. destruct (sys_close fd w2). reflexivity.
Qed.

Lemma sys_open_ff p w : w_force_foreign (snd (sys_open p w)) = w_force_foreign w.
Proof. unfold sys_open. destruct (w_fs w p) as [[f|e]|]; reflexivity. Qed.

Lemma sys_read_ff fd n w : w_force_foreign (snd (sys_read fd n w)) = w_force_foreign w.
Proof. unfold sys_read. destruct (fd_lookup fd (w_fds w)); [destruct existsb|]; reflexivity. Qed.

Lemma sys_close_ff fd w : w_force_foreign (snd (sys_close fd w)) = w_force_foreign w.
Proof. unfold sys_close. destruct (fd_lookup fd (w_fds w)); reflexivity. Qed.

Lemma open_elf_ff p eh0 w :
  w_force_foreign (snd (open_elf p eh0 w)) = w_force_foreign w.
Proof.
  unfold open_elf. pose proof (sys_open_ff p w) as H1.
  destruct (sys_open p w) as [fd w1]. cbn [snd] in H1.
  destruct (fd <? 0); [exact H1|].
  pose proof (sys_read_ff fd sizeof_ElfHeader w1) as H2.
  destruct (sys_read fd sizeof_ElfHeader w1) as [[st data] w2]. cbn [snd] in H2.
  match goal with |- context [if ?t <? 0 then _ else _] => destruct (t <? 0) end.
  - pose proof (sys_close_ff fd w2) as H3. destruct (sys_close fd w2). cbn in *. congruence.
  - cbn. congruence.
Qed.

(** X3: is_host_elf reads PROOT_FORCE_FOREIGN_BINARY on its first call
    only: that call stores 1 or 0 in its static flag, and once the flag is
    stored it is kept, and setting or unsetting the variable no longer
    changes any answer. *)
Theorem is_host_elf_flag_cached host_elf_machine qemu host_path w :
  let w' := snd (is_host_elf host_elf_machine qemu host_path w) in
  (w_force_foreign w < 0 -> w_force_foreign w' = if w_env_force w then 1 else 0)
  /\ (0 <= w_force_foreign w ->
      w_force_foreign w' = w_force_foreign w
      /\ forall b, fst (is_host_elf host_elf_machine qemu host_path (set_env_force w b))
                   = fst (is_host_elf host_elf_machine qemu host_path w)).
Proof.
  cbv zeta.
  assert (Hff : forall v, w_force_foreign (snd (is_host_elf host_elf_machine qemu host_path v))
                          = w_force_foreign (resolve_force_foreign v)).
  { intros v. unfold is_host_elf.
    destruct (_ || _); [reflexivity|].
    destruct (fresh (Z.to_nat sizeof_ElfHeader) (resolve_force_foreign v)) as [eh0 v1] eqn:F.
    assert (Hv1 : w_force_foreign v1 = w_force_foreign (resolve_force_foreign v))
      by (unfold fresh in F; injection F as _ <-; reflexivity).
    pose proof (open_elf_ff host_path eh0 v1) as Ho.
    destruct (open_elf host_path eh0 v1) as [[fd eh] v2]. cbn [snd] in Ho.
    destruct (fd <? 0); [cbn; congruence|].
    pose proof (sys_close_ff fd v2) as Hc. destruct (sys_close fd v2). cbn in *. congruence. }
  split.
  - intros Hneg. rewrite Hff. unfold resolve_force_foreign.
    replace (w_force_foreign w <? 0) with true by (symmetry; apply Z.ltb_lt; exact Hneg).
    reflexivity.
  - intros Hnn. rewrite Hff. unfold resolve_force_foreign.
    replace (w_force_foreign w <? 0) with false by (symmetry; apply Z.ltb_ge; exact Hnn).
    split; [reflexivity|]. intros b.
    unfold is_host_elf, resolve_force_foreign. cbn [w_force_foreign set_env_force].
    replace (w_force_foreign w <? 0) with false by (symmetry; apply Z.ltb_ge; exact Hnn).
    destruct (_ || _); [reflexivity|].
    change (fresh (Z.to_nat sizeof_ElfHeader) (set_env_force w b))
      with (fst (fresh (Z.to_nat sizeof_ElfHeader) w),
            set_env_force (snd (fresh (Z.to_nat sizeof_ElfHeader) w)) b).
    destruct (fresh (Z.to_nat sizeof_ElfHeader) w) as [eh0 w1]. cbn [fst snd].
    rewrite open_elf_env. destruct (open_elf host_path eh0 w1) as [[fd eh] w2]. cbn [fst snd].
    destruct (fd <? 0); [reflexivity|].
    rewrite sys_close_env. destruct (sys_close fd w2). reflexivity.
Qed.

Lemma is_host_elf_flag_cached_witness :
  fst (is_host_elf x86_64_machines true "/root/a.out"
         (set_env_force (snd (is_host_elf x86_64_machines true "/root/a.out" motd_world)) true))
  = fst (is_host_elf x86_64_machines true "/root/a.out"
           (snd (is_host_elf x86_64_machines true "/root/a.out" motd_world))).
Proof.
  apply (proj2 (is_host_elf_flag_cached x86_64_machines true "/root/a.out"
                  (snd (is_host_elf x86_64_machines true "/root/a.out" motd_world)))).
  vm_compute. intros H; discriminate H.
Defined.

(** ** find_program_header on a table cut off by the end of the file *)

(** The loop of find_program_header over a table whose entry [k] is cut
    off by the end of the file: a match among the [k] whole entries, or a
    short read reported as [-ENOTSUP]. *)
Lemma fph_loop_short k n fd h s ph type address w f p :
  fd_lookup fd (w_fds w) = Some (mkOfd f p) ->
  KNOWN_PHENTSIZE h s = true ->
  (k < n)%nat ->
  (k = O \/ p + Z.of_nat k * s <= f_size f) ->
  f_size f < p + Z.of_nat (S k) * s ->
  (forall i, p <= i < f_size f -> f_bad f i = false) ->
  let '(st, ph', _) := fph_loop n fd h s ph type address w in
  match find (ph_matches h type address) (ph_table f p s k) with
  | Some e => st = 1 /\ firstn (Z.to_nat s) ph' = e
  | None => st = - ENOTSUP
  end.
Proof.
  intros Hfd Hk. assert (Hs : s = 32 \/ s = 56)
    by (destruct (known_phentsize_cases _ _ Hk); lia).
  revert n p w ph Hfd.
  induction k as [|k IH]; intros n p w ph Hfd Hn Hin Hout Hbad;
    (destruct n as [|n]; [lia|]); cbn [fph_loop ph_table].
  - rewrite (sys_read_avail fd s w f p Hfd) by (intros; apply Hbad; lia).
    replace (Z.max 0 (Z.min s (f_size f - p)) =? s) with false
      by (symmetry; apply Z.eqb_neq; lia).
    replace (Z.max 0 (Z.min s (f_size f - p)) <? 0) with false
      by (symmetry; apply Z.ltb_ge; lia).
    reflexivity.
  - destruct Hin as [Hin|Hin]; [discriminate|].
    rewrite (sys_read_ok fd s w f p Hfd) by (lia || (intros; apply Hbad; lia)).
    set (e := map (f_byte f) (zrange p s)).
    assert (Hlen : List.length e = Z.to_nat s)
      by (unfold e; rewrite length_map, zrange_length; reflexivity).
    assert (Hke : KNOWN_PHENTSIZE h (Z.of_nat (List.length e)) = true)
      by (rewrite Hlen, Z2Nat.id by lia; exact Hk).
    rewrite Z.eqb_refl. cbn [negb find].
    assert (Hm : ph_matches h type address (overwrite e ph) = ph_matches h type address e)
      by (apply ph_matches_app; exact Hke).
    unfold ph_matches in Hm at 1.
    destruct (ph_matches h type address e) eqn:Em.
    + destruct (ph_type h (overwrite e ph) =? type); [|discriminate].
      destruct (address =? WILDCARD); cbn [andb orb] in Hm; [|rewrite Hm];
        cbn iota; (split; [reflexivity|]); rewrite <- Hlen; apply firstn_overwrite.
    + assert (Hrest :
        (if ph_type h (overwrite e ph) =? type then
           if address =? WILDCARD then (1, overwrite e ph, set_fds w (fd_set fd (mkOfd f (p + s)) (w_fds w)))
           else if ph_contains h (overwrite e ph) address
                then (1, overwrite e ph, set_fds w (fd_set fd (mkOfd f (p + s)) (w_fds w)))
                else fph_loop n fd h s (overwrite e ph) type address
                       (set_fds w (fd_set fd (mkOfd f (p + s)) (w_fds w)))
         else fph_loop n fd h s (overwrite e ph) type address
                (set_fds w (fd_set fd (mkOfd f (p + s)) (w_fds w))))
        = fph_loop n fd h s (overwrite e ph) type address
            (set_fds w (fd_set fd (mkOfd f (p + s)) (w_fds w)))).
      { destruct (ph_type h (overwrite e ph) =? type); [|reflexivity].
        destruct (address =? WILDCARD); [discriminate|].
        cbn [orb andb] in Hm. rewrite Hm. reflexivity. }
      rewrite Hrest. apply IH.
      * cbn. apply fd_lookup_set.
      * lia.
      * destruct k; [left; reflexivity|right; lia].
      * lia.
      * intros i Hi. apply Hbad. lia.
Qed.

Lemma find_program_header_short fd h ph type address w o :
  fd_lookup fd (w_fds w) = Some o ->
  0 < elf_phnum h < 65535 -> KNOWN_PHENTSIZE h (elf_phentsize h) = true ->
  elf_phoff h < 2 ^ 31 ->
  f_size (o_file o) < elf_phoff h + elf_phnum h * elf_phentsize h ->
  (forall i, elf_phoff h <= i < f_size (o_file o) -> f_bad (o_file o) i = false) ->
  let '(st, ph', _) := find_program_header fd h ph type address w in
  match find (ph_matches h type address)
          (ph_table (o_file o) (elf_phoff h) (elf_phentsize h)
             (Z.to_nat ((f_size (o_file o) - elf_phoff h) / elf_phentsize h))) with
  | Some e => st = 1 /\ firstn (Z.to_nat (elf_phentsize h)) ph' = e
  | None => st = - ENOTSUP
  end.
Proof.
  intros Hfd Hnum Hk Hoff Hsize Hbad.
  pose proof (elf_phoff_nonneg h).
  assert (Hs : elf_phentsize h = 32 \/ elf_phentsize h = 56)
    by (destruct (known_phentsize_cases _ _ Hk); lia).
  unfold find_program_header.
  replace (elf_phnum h >=? 65535) with false by (symmetry; rewrite Z.geb_leb; apply Z.leb_gt; lia).
  rewrite Hk. cbn [negb].
  rewrite to_s64_small by lia.
  unfold sys_lseek. rewrite Hfd.
  replace (elf_phoff h <? 0) with false by (symmetry; apply Z.ltb_ge; lia).
  rewrite to_s32_small by lia.
  replace (elf_phoff h <? 0) with false by (symmetry; apply Z.ltb_ge; lia).
  set (s := elf_phentsize h) in *. set (p := elf_phoff h) in *.
  set (sz := f_size (o_file o)) in *.
  assert (Hdm : sz - p = s * ((sz - p) / s) + (sz - p) mod s) by (apply Z.div_mod; lia).
  assert (Hr : 0 <= (sz - p) mod s < s) by (apply Z.mod_pos_bound; lia).
  set (j := (sz - p) / s) in *. set (r := (sz - p) mod s) in *.
  destruct (Z.le_gt_cases 0 j) as [Hj|Hj].
  - assert (Hjn : j < elf_phnum h) by nia.
    apply fph_loop_short.
    + cbn. apply fd_lookup_set.
    + exact Hk.
    + lia.
    + right. rewrite Z2Nat.id by lia. nia.
    + rewrite Nat2Z.inj_succ, Z2Nat.id by lia. nia.
    + exact Hbad.
  - replace (Z.to_nat j) with O by (destruct j; [reflexivity|lia|reflexivity]).
    apply fph_loop_short.
    + cbn. apply fd_lookup_set.
    + exact Hk.
    + lia.
    + left. reflexivity.
    + cbn [Z.of_nat]. nia.
    + exact Hbad.
Qed.

(** X4: when the program header table runs past the end of the file,
    find_program_header returns the first of the whole entries that its
    test accepts, and [-ENOTSUP] if none does: the cut-off entry is never
    tested. *)
Theorem find_program_header_truncated fd h ph type address w o :
  fd_lookup fd (w_fds w) = Some o ->
  0 < elf_phnum h < 65535 -> KNOWN_PHENTSIZE h (elf_phentsize h) = true ->
  elf_phoff h < 2 ^ 31 ->
  f_size (o_file o) < elf_phoff h + elf_phnum h * elf_phentsize h ->
  (forall i, elf_phoff h <= i < f_size (o_file o) -> f_bad (o_file o) i = false) ->
  let '(st, ph', _) := find_program_header fd h ph type address w in
  match find (ph_matches h type address)
          (ph_table (o_file o) (elf_phoff h) (elf_phentsize h)
             (Z.to_nat ((f_size (o_file o) - elf_phoff h) / elf_phentsize h))) with
  | Some e => st = 1 /\ firstn (Z.to_nat (elf_phentsize h)) ph' = e
  | None => st = - ENOTSUP
  end.
Proof. exact (find_program_header_short fd h ph type address w o). Qed.

Lemma find_program_header_truncated_witness :
  fst (fst (find_program_header 3 (header_of truncated_image) (repeat 0 56) PT_DYNAMIC WILDCARD
              (world_of_image truncated_image))) = - ENOTSUP.
Proof.
  generalize (find_program_header_truncated 3 (header_of truncated_image) (repeat 0 56)
                PT_DYNAMIC WILDCARD (world_of_image truncated_image)
                (mkOfd (file_of_list truncated_image) 0)
                eq_refl (conj eq_refl eq_refl) eq_refl eq_refl eq_refl (fun _ _ => eq_refl)).
  vm_compute. intros H. exact H.
Defined.

(** ** read_ldso_rpaths only ever appends to the accumulated paths *)

Lemma grows_refl w : grows w w.
Proof. split; [reflexivity|]. intros c b s H. exists b, []. rewrite app_nil_r. exact H. Qed.

Lemma grows_trans w1 w2 w3 : grows w1 w2 -> grows w2 w3 -> grows w1 w3.
Proof.
  intros [F1 C1] [F2 C2]. split; [intros fd; rewrite F2; apply F1|].
  intros c b s H. destruct (C1 c b s H) as (b1 & t1 & H1).
  destruct (C2 c b1 (s ++ t1) H1) as (b2 & t2 & H2).
  exists b2, (t1 ++ t2). rewrite app_assoc. exact H2.
Qed.

Lemma grows_same w w' :
  (forall fd, fd_file fd w' = fd_file fd w) -> (forall c, get_cell w' c = get_cell w c) ->
  grows w w'.
Proof.
  intros F C. split; [exact F|]. intros c b s H. exists b, []. rewrite app_nil_r, C. exact H.
Qed.

Lemma grows_set_cell w c x :
  (forall b s, get_cell w c = Some (b, s) -> exists b' t, x = Some (b', s ++ t)) ->
  grows w (set_cell w c x).
Proof.
  intros Hx. split; [intros fd; destruct c; reflexivity|].
  intros c' b s H.
  destruct c, c'; cbn [get_cell set_cell w_rpaths w_runpaths] in *;
    first [apply (Hx b s H) | exists b, []; rewrite app_nil_r; exact H].
Qed.

Lemma grows_lseek fd off w : grows w (snd (sys_lseek fd off w)).
Proof. apply grows_same; [apply sys_lseek_file|apply sys_lseek_cell]. Qed.

Lemma grows_read fd n w : grows w (snd (sys_read fd n w)).
Proof. apply grows_same; [apply sys_read_file|apply sys_read_cell]. Qed.

Lemma grows_fresh n w : grows w (snd (fresh n w)).
Proof. apply grows_same; [reflexivity|apply fresh_cell]. Qed.

Lemma grows_talloc w : grows w (snd (talloc_try w)).
Proof. apply grows_same; [reflexivity|apply talloc_try_cell]. Qed.

Lemma xpaths_loop_grows fuel fd paths length w r w' :
  xpaths_loop fuel fd paths length w = Some (r, w') -> grows w w'.
Proof.
  revert paths length w.
  induction fuel as [|fuel IH]; intros paths length w Hl; [discriminate|].
  cbn [xpaths_loop] in Hl.
  pose proof (grows_talloc w) as G1. destruct (talloc_try w) as [tmp w1]. cbn [snd] in G1.
  destruct tmp as [b|]; [|injection Hl; intros; subst; exact G1].
  pose proof (grows_fresh 1024 w1) as G2. destruct (fresh 1024 w1) as [more w2]. cbn [snd] in G2.
  pose proof (grows_read fd 1024 w2) as G3.
  destruct (sys_read fd 1024 w2) as [[status data] w3]. cbn [snd] in G3.
  pose proof (grows_trans _ _ _ (grows_trans _ _ _ G1 G2) G3) as G.
  destruct (status <? 0); [injection Hl; intros; subst; exact G|].
  match type of Hl with context [if ?t then _ else _] => destruct t end;
    [|injection Hl; intros; subst; exact G].
  exact (grows_trans _ _ _ G (IH _ _ _ Hl)).
Qed.

Lemma add_xpaths_grows fuel fd offset c w z w' :
  add_xpaths fuel fd offset c w = Some (z, w') -> grows w w'.
Proof.
  unfold add_xpaths. intros H.
  pose proof (grows_lseek fd (to_s64 offset) w) as G1.
  destruct (sys_lseek fd (to_s64 offset) w) as [r w1]. cbn [snd] in G1.
  destruct (to_s32 r <? 0); [injection H; intros; subst; exact G1|].
  destruct (xpaths_loop fuel fd [] 0 w1) as [[o w2]|] eqn:E; [|discriminate].
  pose proof (grows_trans _ _ _ G1 (xpaths_loop_grows _ _ _ _ _ _ _ E)) as G2.
  destruct o as [z'|paths length]; [injection H; intros; subst; exact G2|].
  pose proof (grows_talloc w2) as G3. pose proof (talloc_try_cell w2 c) as Hc.
  destruct (get_cell w2 c) as [[b s]|] eqn:Ec;
    destruct (talloc_try w2) as [tmp w3]; cbn [snd] in G3, Hc;
    pose proof (grows_trans _ _ _ G2 G3) as G4;
    (destruct tmp as [b'|]; injection H; intros; subst; [|try exact G4]).
  - apply (grows_trans _ _ _ G4). apply grows_set_cell.
    intros b0 s0 Hs. rewrite Hc in Hs. injection Hs; intros; subst.
    exists b', ([58] ++ c_string paths). reflexivity.
  - apply (grows_trans _ _ _ G4). apply grows_set_cell.
    intros b0 s0 Hs. rewrite Hc in Hs. discriminate.
  - apply (grows_trans _ _ _ G4). apply grows_set_cell.
    intros b0 s0 Hs. rewrite Hc in Hs. discriminate.
Qed.

Lemma xpath_body_grows fuel fd strtab_offset c u value w fl u' w' :
  xpath_body fuel fd strtab_offset c u value w = Some (fl, u', w') -> grows w w'.
Proof.
  unfold xpath_body, xpath_entry. intros H.
  destruct (_ || _); [injection H; intros; subst; apply grows_refl|].
  destruct (add_xpaths fuel fd (to_u64 (strtab_offset + value)) c w) as [[z w1]|] eqn:E;
    [|discriminate].
  pose proof (add_xpaths_grows _ _ _ _ _ _ _ E) as G.
  destruct (z <? 0); injection H; intros; subst; exact G.
Qed.

Lemma foreach_grows {L : Type} (body : L -> Z -> world -> option (flow * L * world))
    (Hb : forall l v w fl l' w', body l v w = Some (fl, l', w') -> grows w w')
    k i fd h off s type l w fl l' w' :
  foreach_dynamic_entry k i fd h off s type body l w = Some (fl, l', w') -> grows w w'.
Proof.
  revert i l w. induction k as [|k IH]; intros i l w H; cbn [foreach_dynamic_entry] in H;
    [injection H; intros; subst; apply grows_refl|].
  pose proof (grows_fresh sizeof_DynamicEntry w) as G1.
  destruct (fresh sizeof_DynamicEntry w) as [de w1]. cbn [snd] in G1.
  match type of H with context [sys_lseek fd ?o w1] =>
    pose proof (grows_lseek fd o w1) as G2; destruct (sys_lseek fd o w1) as [r w2] end.
  cbn [snd] in G2. pose proof (grows_trans _ _ _ G1 G2) as G12.
  destruct (to_s32 r <? 0); [injection H; intros; subst; exact G12|].
  pose proof (grows_read fd s w2) as G3.
  destruct (sys_read fd s w2) as [[status data] w3]. cbn [snd] in G3.
  pose proof (grows_trans _ _ _ G12 G3) as G.
  destruct (status <? 0); [injection H; intros; subst; exact G|].
  destruct (negb _); [exact (grows_trans _ _ _ G (IH _ _ _ H))|].
  destruct (body l (dyn_val h (overwrite data de)) w3) as [[[fl1 l1] w4]|] eqn:Eb;
    [|discriminate].
  pose proof (grows_trans _ _ _ G (Hb _ _ _ _ _ _ Eb)) as G4.
  destruct fl1; [exact (grows_trans _ _ _ G4 (IH _ _ _ H))|..];
    injection H; intros; subst; exact G4.
Qed.

Lemma fph_loop_grows k fd h s ph type address w st ph' w' :
  fph_loop k fd h s ph type address w = (st, ph', w') -> grows w w'.
Proof.
  revert ph w. induction k as [|k IH]; intros ph w H; cbn [fph_loop] in H;
    [injection H; intros; subst; apply grows_refl|].
  pose proof (grows_read fd s w) as G.
  destruct (sys_read fd s w) as [[st1 data] w1]. cbn [snd] in G.
  destruct (negb (st1 =? s)); [injection H; intros; subst; exact G|].
  destruct (ph_type h (overwrite data ph) =? type);
    [destruct (address =? WILDCARD);
      [|destruct (ph_contains h (overwrite data ph) address)]|];
    first [injection H; intros; subst; exact G | exact (grows_trans _ _ _ G (IH _ _ H))].
Qed.

Lemma find_program_header_grows fd h ph type address w st ph' w' :
  find_program_header fd h ph type address w = (st, ph', w') -> grows w w'.
Proof.
  unfold find_program_header. intros H.
  destruct (elf_phnum h >=? 65535); [injection H; intros; subst; apply grows_refl|].
  destruct (negb _); [injection H; intros; subst; apply grows_refl|].
  pose proof (grows_lseek fd (to_s64 (elf_phoff h)) w) as G.
  destruct (sys_lseek fd (to_s64 (elf_phoff h)) w) as [r w1]. cbn [snd] in G.
  destruct (to_s32 r <? 0); [injection H; intros; subst; exact G|].
  exact (grows_trans _ _ _ G (fph_loop_grows _ _ _ _ _ _ _ _ _ _ _ H)).
Qed.

Lemma read_ldso_rpaths_grows fuel fd h w z w' :
  read_ldso_rpaths fuel fd h w = Some (z, w') -> grows w w'.
Proof.
  unfold read_ldso_rpaths. intros H.
  pose proof (grows_fresh sizeof_ProgramHeader w) as G1.
  destruct (fresh sizeof_ProgramHeader w) as [ds0 w1]. cbn [snd] in G1.
  pose proof (grows_fresh sizeof_ProgramHeader w1) as G2.
  destruct (fresh sizeof_ProgramHeader w1) as [ss0 w2]. cbn [snd] in G2.
  destruct (find_program_header fd h ds0 PT_DYNAMIC WILDCARD w2) as [[st ds] w3] eqn:E3.
  pose proof (grows_trans _ _ _ (grows_trans _ _ _ G1 G2)
                (find_program_header_grows _ _ _ _ _ _ _ _ _ E3)) as G3.
  destruct (st <=? 0); [injection H; intros; subst; exact G3|].
  destruct (negb _); [injection H; intros; subst; exact G3|].
  match type of H with context [foreach_dynamic_entry ?n 0 fd h ?o ?s DT_STRTAB strtab_body ?l w3] =>
    destruct (foreach_dynamic_entry n 0 fd h o s DT_STRTAB strtab_body l w3)
      as [[[fl sa] w4]|] eqn:E4 end; [|discriminate].
  assert (Hs : forall l v w fl l' w', strtab_body l v w = Some (fl, l', w') -> grows w w')
    by (unfold strtab_body; intros; injection H0; intros; subst; apply grows_refl).
  pose proof (grows_trans _ _ _ G3 (foreach_grows _ Hs _ _ _ _ _ _ _ _ _ _ _ _ E4)) as G4.
  destruct fl as [| |z4]; [..|injection H; intros; subst; exact G4].
  all: destruct (sa =? WILDCARD); [injection H; intros; subst; exact G4|].
  all: destruct (find_program_header fd h ss0 PT_LOAD sa w4) as [[st5 ss] w5] eqn:E5.
  all: pose proof (grows_trans _ _ _ G4 (find_program_header_grows _ _ _ _ _ _ _ _ _ E5)) as G5.
  all: destruct (st5 <? 0); [injection H; intros; subst; exact G5|].
  all: match type of H with context [foreach_dynamic_entry ?n 0 ?d ?e ?o ?s DT_RPATH ?b tt ?ww] =>
         destruct (foreach_dynamic_entry n 0 d e o s DT_RPATH b tt ww)
           as [[[fl6 u6] w6]|] eqn:E6 end; [|discriminate].
  all: pose proof (grows_trans _ _ _ G5
         (foreach_grows _ (xpath_body_grows _ _ _ _) _ _ _ _ _ _ _ _ _ _ _ _ E6)) as G6.
  all: destruct fl6 as [| |z6]; [..|injection H; intros; subst; exact G6].
  all: match type of H with context [foreach_dynamic_entry ?n 0 ?d ?e ?o ?s DT_RUNPATH ?b tt ?ww] =>
         destruct (foreach_dynamic_entry n 0 d e o s DT_RUNPATH b tt ww)
           as [[[fl7 u7] w7]|] eqn:E7 end; [|discriminate].
  all: pose proof (grows_trans _ _ _ G6
         (foreach_grows _ (xpath_body_grows _ _ _ _) _ _ _ _ _ _ _ _ _ _ _ _ E7)) as G7.
  all: destruct fl7; injection H; intros; subst; exact G7.
Qed.

(** X5: whatever read_ldso_rpaths returns (an error included), it leaves
    the file open on every descriptor as it was, and it only appends to
    the rpaths and runpaths strings: a string held before the call is a
    prefix of the one held after it. *)
Theorem read_ldso_rpaths_only_appends fuel fd h w z w' :
  read_ldso_rpaths fuel fd h w = Some (z, w') ->
  (forall fd', fd_file fd' w' = fd_file fd' w)
  /\ (forall c b s, get_cell w c = Some (b, s) ->
                    exists b' t, get_cell w' c = Some (b', s ++ t)).
Proof. exact (read_ldso_rpaths_grows fuel fd h w z w'). Qed.

Lemma read_ldso_rpaths_only_appends_witness :
  (forall fd', fd_file fd' (world_after (run_preset 8) preset_world) = fd_file fd' preset_world)
  /\ (forall c b s, get_cell preset_world c = Some (b, s) ->
        exists b' t, get_cell (world_after (run_preset 8) preset_world) c = Some (b', s ++ t)).
Proof.
  apply (read_ldso_rpaths_only_appends 8 3 (header_of runpath_image) preset_world
           (match run_preset 8 with Some (z, _) => z | None => 0 end)).
  vm_compute. reflexivity.
Defined.

(** ** add_xpaths on a string cut off by the end of the file *)

Lemma strnlen_app_nonzero a b m :
  ~ In 0 a -> (List.length a <= m)%nat ->
  strnlen (a ++ b) m = (List.length a + strnlen b (m - List.length a))%nat.
Proof.
  revert m. induction a as [|x a IH]; intros m Hn Hl.
  - cbn. rewrite Nat.sub_0_r. reflexivity.
  - destruct m as [|m]; cbn in Hl; [lia|]. cbn [app strnlen List.length].
    destruct (Z.eqb_spec x 0); [cbn in Hn; tauto|].
    rewrite IH by (cbn in Hn; tauto || lia). reflexivity.
Qed.

Lemma strnlen_lt_zero s m :
  In 0 s -> (List.length s <= m)%nat -> (strnlen s m < List.length s)%nat.
Proof.
  revert m. induction s as [|x s IH]; intros m Hin Hl; [contradiction|].
  destruct m as [|m]; cbn in Hl; [lia|]. cbn [strnlen List.length].
  destruct (Z.eqb_spec x 0); [lia|].
  destruct Hin as [->|Hin]; [contradiction|]. specialize (IH m Hin ltac:(lia)). lia.
Qed.

Lemma c_string_app_nonzero a b : ~ In 0 a -> c_string (a ++ b) = a ++ c_string b.
Proof.
  induction a as [|x a IH]; intros Hn; cbn in *; [reflexivity|].
  destruct (Z.eqb_spec x 0); [tauto|]. f_equal. apply IH. tauto.
Qed.

Lemma xpaths_loop_eof fuel fd f off n w :
  fd_lookup fd (w_fds w) = Some (mkOfd f off) ->
  f_size f = off + n -> 0 <= n < 1024 ->
  (forall i, off <= i < f_size f -> f_bad f i = false) ->
  (forall i, off <= i < f_size f -> f_byte f i <> 0) ->
  In 0 (skipn (Z.to_nat n) (fst (fresh 1024 w))) ->
  (forall m, w_oom w m = false) -> (1 <= fuel)%nat ->
  exists paths length w', xpaths_loop fuel fd [] 0 w = Some (LDone paths length, w')
    /\ c_string paths = map (f_byte f) (zrange off n)
                        ++ c_string (skipn (Z.to_nat n) (fst (fresh 1024 w)))
    /\ (forall m, w_oom w' m = false) /\ fd_file fd w' = Some f.
Proof.
  intros Hfd Hsize Hn Hbad Hnz Hin Hoom Hfuel.
  destruct fuel as [|fuel]; [lia|]. cbn [xpaths_loop].
  unfold talloc_try at 1. cbn zeta. rewrite Hoom.
  set (J := fst (fresh 1024 w)) in *.
  replace (fresh 1024 (set_nalloc w (S (w_nalloc w))))
    with (J, snd (fresh 1024 (set_nalloc w (S (w_nalloc w))))) by reflexivity.
  set (w3 := snd (fresh 1024 (set_nalloc w (S (w_nalloc w))))).
  change (Z.to_nat 0) with O. cbn [app firstn skipn].
  rewrite (sys_read_avail fd 1024 w3 f off Hfd) by (intros; apply Hbad; lia).
  replace (Z.max 0 (Z.min 1024 (f_size f - off))) with n by lia.
  replace (n <? 0) with false by (symmetry; apply Z.ltb_ge; lia).
  set (data := map (f_byte f) (zrange off n)).
  assert (Hlen : List.length data = Z.to_nat n)
    by (unfold data; rewrite length_map, zrange_length; reflexivity).
  assert (Hdn : ~ In 0 data)
    by (apply (map_zrange_nonzero _ _ _ off (f_size f)); [exact Hnz|lia|lia]).
  assert (HJ : List.length J = 1024%nat) by apply fresh_length.
  unfold overwrite. rewrite Hlen.
  rewrite strnlen_app_nonzero by (exact Hdn || lia).
  pose proof (strnlen_lt_zero (skipn (Z.to_nat n) J) (1024 - List.length data) Hin) as Hlt.
  rewrite length_skipn, HJ, Hlen in Hlt. specialize (Hlt ltac:(lia)).
  rewrite Hlen.
  replace (0 + Z.of_nat (Z.to_nat n + strnlen (skipn (Z.to_nat n) J) (1024 - Z.to_nat n)) =? 0 + 1024)
    with false by (symmetry; apply Z.eqb_neq; lia).
  eexists _, _, _. split; [reflexivity|]. split; [|split].
  - apply c_string_app_nonzero. exact Hdn.
  - intros m. exact (Hoom m).
  - unfold fd_file. cbn [w_fds set_fds]. rewrite fd_lookup_set. reflexivity.
Qed.

Lemma add_xpaths_eof fuel fd offset c w f n :
  fd_file fd w = Some f ->
  0 <= offset < 2 ^ 31 -> f_size f = offset + n -> 0 <= n < 1024 ->
  (forall i, offset <= i < f_size f -> f_bad f i = false) ->
  (forall i, offset <= i < f_size f -> f_byte f i <> 0) ->
  In 0 (skipn (Z.to_nat n) (fst (fresh 1024 w))) ->
  (forall m, w_oom w m = false) -> (1 <= fuel)%nat ->
  let s := map (f_byte f) (zrange offset n) ++ c_string (skipn (Z.to_nat n) (fst (fresh 1024 w))) in
  exists b w', add_xpaths fuel fd offset c w = Some (0, w')
    /\ get_cell w' c = Some (b, match get_cell w c with
                                | None => s
                                | Some (_, old) => old ++ [58] ++ s
                                end).
Proof.
  intros Hf Hoff Hsize Hn Hbad Hnz Hin Hoom Hfuel s.
  unfold add_xpaths. rewrite to_s64_small by lia.
  unfold fd_file in Hf. destruct (fd_lookup fd (w_fds w)) as [o|] eqn:Ho; [|discriminate].
  injection Hf as Hf.
  destruct (sys_lseek fd offset w) as [r w1] eqn:E1.
  cell_step E1 (sys_lseek_cell fd offset w c).
  unfold sys_lseek in E1. rewrite Ho in E1.
  replace (offset <? 0) with false in E1 by (symmetry; apply Z.ltb_ge; lia).
  injection E1 as <- Ew1.
  replace (to_s32 offset <? 0) with false
    by (rewrite to_s32_small by lia; symmetry; apply Z.ltb_ge; lia).
  destruct (xpaths_loop_eof fuel fd f offset n w1) as (paths & len & w2 & Hl & Hs & Hoom2 & _).
  { rewrite <- Ew1. cbn [w_fds set_fds]. rewrite fd_lookup_set, Hf. reflexivity. }
  all: try lia; try assumption.
  { rewrite <- Ew1. exact Hin. }
  { rewrite <- Ew1. exact Hoom. }
  subst w1. rewrite Hl.
  pose proof (xpaths_loop_cell _ _ _ _ _ _ _ c Hl) as Hc2.
  rewrite <- Hc, <- Hc2. unfold talloc_try. rewrite Hoom2. cbn zeta.
  destruct (get_cell w2 c) as [[b0 old]|];
    eexists _, _; (split; [reflexivity|]); rewrite get_set_cell, Hs; reflexivity.
Qed.

(** X6: when the string at [offset] runs without a NUL up to the end of the
    file, [n < 1024] bytes after it, add_xpaths adds those [n] bytes followed
    by the bytes that the newly allocated buffer held after them, up to the
    first NUL among these (the [strnlen] of the loop scans the whole
    1024-byte chunk whatever [read] returned). *)
Theorem add_xpaths_past_eof fuel fd offset c w f n :
  fd_file fd w = Some f ->
  0 <= offset < 2 ^ 31 -> f_size f = offset + n -> 0 <= n < 1024 ->
  (forall i, offset <= i < f_size f -> f_bad f i = false) ->
  (forall i, offset <= i < f_size f -> f_byte f i <> 0) ->
  In 0 (skipn (Z.to_nat n) (fst (fresh 1024 w))) ->
  (forall m, w_oom w m = false) -> (1 <= fuel)%nat ->
  let s := map (f_byte f) (zrange offset n) ++ c_string (skipn (Z.to_nat n) (fst (fresh 1024 w))) in
  exists b w', add_xpaths fuel fd offset c w = Some (0, w')
    /\ get_cell w' c = Some (b, match get_cell w c with
                                | None => s
                                | Some (_, old) => old ++ [58] ++ s
                                end).
Proof. exact (add_xpaths_eof fuel fd offset c w f n). Qed.

Lemma add_xpaths_past_eof_witness :
  exists b w', add_xpaths 1 3 0 Rpaths eof_world = Some (0, w')
    /\ get_cell w' Rpaths = Some (b, bytes_of_string "/usr/lib" ++ repeat 170 4).
Proof.
  pose proof (add_xpaths_past_eof 1 3 0 Rpaths eof_world (file_of_list (bytes_of_string "/usr/lib")) 8
                eq_refl ltac:(concrete) eq_refl ltac:(concrete) (fun _ _ => eq_refl)
                ltac:(intros i Hi; change (f_size _) with 8 in Hi;
                      assert (Hr : i = 0 \/ i = 1 \/ i = 2 \/ i = 3 \/ i = 4 \/ i = 5
                                   \/ i = 6 \/ i = 7) by lia;
                      destruct Hr as [->|[->|[->|[->|[->|[->|[->| ->]]]]]]];
                      vm_compute; discriminate)
                ltac:(vm_compute; tauto) (fun _ => eq_refl) ltac:(lia)) as H.
  exact H.
Defined.

(** ** read_ldso_rpaths on a well-formed image *)

Lemma frame_refl w : frame w w.
Proof. repeat split. Qed.

Lemma frame_trans w1 w2 w3 : frame w1 w2 -> frame w2 w3 -> frame w1 w3.
Proof.
  intros (F1 & C1 & O1) (F2 & C2 & O2). repeat split; intros;
    [rewrite F2; apply F1 | rewrite C2; apply C1 | congruence].
Qed.

Lemma dyn_val_app h e r :
  dyn_size_ok h (Z.of_nat (List.length e)) -> dyn_val h (e ++ r) = dyn_val h e.
Proof.
  intros [[E L]|[E L]]; unfold dyn_val; rewrite E; apply ufield_app; lia.
Qed.

(** One iteration of FOREACH_DYNAMIC_ENTRY on a readable entry: the entry
    is read from the file, and the embedded code runs on its value when its
    tag is [type]. *)
Lemma foreach_step {L : Type} k i fd h off s type body (l : L) w f :
  fd_file fd w = Some f -> dyn_size_ok h s -> 0 <= off -> 0 <= i ->
  off + (i + 1) * s <= f_size f -> off + (i + 1) * s < 2 ^ 31 ->
  (forall j, off + i * s <= j < off + (i + 1) * s -> f_bad f j = false) ->
  let e := map (f_byte f) (zrange (off + i * s) s) in
  exists w2, frame w w2 /\
    foreach_dynamic_entry (S k) i fd h off s type body l w
    = if dyn_tag h e =? type then
        match body l (dyn_val h e) w2 with
        | None => None
        | Some (FNext, l, w) => foreach_dynamic_entry k (i + 1) fd h off s type body l w
        | Some (FBreak, l, w) => Some (FNext, l, w)
        | Some (FReturn z, l, w) => Some (FReturn z, l, w)
        end
      else foreach_dynamic_entry k (i + 1) fd h off s type body l w2.
Proof.
  intros Hf Hs Hoff Hi Hsize Hlim Hbad e.
  assert (Hs' : s = 8 \/ s = 16) by (destruct Hs; lia).
  cbn [foreach_dynamic_entry].
  unfold fd_file in Hf.
  destruct (fd_lookup fd (w_fds w)) as [[f0 p0]|] eqn:Ho; [|discriminate].
  cbn in Hf. injection Hf as ->.
  set (w1 := snd (fresh sizeof_DynamicEntry w)).
  change (fresh sizeof_DynamicEntry w) with (fst (fresh sizeof_DynamicEntry w), w1).
  set (de := fst (fresh sizeof_DynamicEntry w)).
  assert (Ho1 : fd_lookup fd (w_fds w1) = Some (mkOfd f p0)) by exact Ho.
  replace (to_s64 (to_u64 (off + i * s))) with (off + i * s).
  2:{ unfold to_u64, two64. rewrite Z.mod_small by lia. rewrite to_s64_small by lia. reflexivity. }
  unfold sys_lseek at 1. rewrite Ho1. cbn [o_file].
  replace (off + i * s <? 0) with false by (symmetry; apply Z.ltb_ge; lia).
  rewrite to_s32_small by lia.
  replace (off + i * s <? 0) with false by (symmetry; apply Z.ltb_ge; lia).
  set (w2 := set_fds w1 (fd_set fd (mkOfd f (off + i * s)) (w_fds w1))).
  rewrite (sys_read_ok fd s w2 f (off + i * s)) by
    (try (unfold w2; cbn; apply fd_lookup_set); try lia; intros; apply Hbad; lia).
  replace (s <? 0) with false by (symmetry; apply Z.ltb_ge; lia).
  fold e.
  assert (Hlen : List.length e = Z.to_nat s)
    by (unfold e; rewrite length_map, zrange_length; reflexivity).
  unfold overwrite.
  rewrite dyn_tag_app, dyn_val_app by (rewrite Hlen, Z2Nat.id by lia; exact Hs).
  set (w3 := set_fds w2 (fd_set fd (mkOfd f (off + i * s + s)) (w_fds w2))).
  exists w3. split.
  - split; [|split; [intros c; destruct c; reflexivity|reflexivity]].
    intros fd'. unfold w3.
    rewrite (fd_file_set fd' fd (mkOfd f (off + i * s)))
      by (unfold w2; cbn; apply fd_lookup_set).
    unfold w2. rewrite (fd_file_set fd' fd (mkOfd f p0)) by exact Ho1. reflexivity.
  - destruct (dyn_tag h e =? type); reflexivity.
Qed.

Lemma frame_lseek fd off w : frame w (snd (sys_lseek fd off w)).
Proof.
  split; [apply sys_lseek_file|split; [apply sys_lseek_cell|]].
  unfold sys_lseek. destruct (fd_lookup fd (w_fds w)); [destruct (off <? 0)|]; reflexivity.
Qed.

Lemma frame_read fd n w : frame w (snd (sys_read fd n w)).
Proof.
  split; [apply sys_read_file|split; [apply sys_read_cell|]].
  unfold sys_read. destruct (fd_lookup fd (w_fds w)); [destruct existsb|]; reflexivity.
Qed.

Lemma frame_fresh n w : frame w (snd (fresh n w)).
Proof. split; [reflexivity|split; [apply fresh_cell|reflexivity]]. Qed.

Lemma fph_loop_frame k fd h s ph type address w st ph' w' :
  fph_loop k fd h s ph type address w = (st, ph', w') -> frame w w'.
Proof.
  revert ph w. induction k as [|k IH]; intros ph w H; cbn [fph_loop] in H;
    [injection H; intros; subst; apply frame_refl|].
  pose proof (frame_read fd s w) as G.
  destruct (sys_read fd s w) as [[st1 data] w1]. cbn [snd] in G.
  destruct (negb (st1 =? s)); [injection H; intros; subst; exact G|].
  destruct (ph_type h (overwrite data ph) =? type);
    [destruct (address =? WILDCARD);
      [|destruct (ph_contains h (overwrite data ph) address)]|];
    first [injection H; intros; subst; exact G | exact (frame_trans _ _ _ G (IH _ _ H))].
Qed.

Lemma find_program_header_frame fd h ph type address w st ph' w' :
  find_program_header fd h ph type address w = (st, ph', w') -> frame w w'.
Proof.
  unfold find_program_header. intros H.
  destruct (elf_phnum h >=? 65535); [injection H; intros; subst; apply frame_refl|].
  destruct (negb _); [injection H; intros; subst; apply frame_refl|].
  pose proof (frame_lseek fd (to_s64 (elf_phoff h)) w) as G.
  destruct (sys_lseek fd (to_s64 (elf_phoff h)) w) as [r w1]. cbn [snd] in G.
  destruct (to_s32 r <? 0); [injection H; intros; subst; exact G|].
  exact (frame_trans _ _ _ G (fph_loop_frame _ _ _ _ _ _ _ _ _ _ _ H)).
Qed.

(** The DT_STRTAB scan over [k] readable entries yields the value of the
    first DT_STRTAB entry, or keeps [l] when there is none. *)
Lemma foreach_strtab k i fd h off s l w f :
  fd_file fd w = Some f -> dyn_size_ok h s -> 0 <= off -> 0 <= i ->
  off + (i + Z.of_nat k) * s <= f_size f -> off + (i + Z.of_nat k) * s < 2 ^ 31 ->
  (forall j, off + i * s <= j < off + (i + Z.of_nat k) * s -> f_bad f j = false) ->
  exists w', frame w w' /\
    foreach_dynamic_entry k i fd h off s DT_STRTAB strtab_body l w
    = Some (FNext, match find (fun d => dyn_tag h d =? DT_STRTAB)
                           (ph_table f (off + i * s) s k) with
                   | Some d => dyn_val h d
                   | None => l
                   end, w').
Proof.
  intros Hf Hs Hoff. assert (Hs' : s = 8 \/ s = 16) by (destruct Hs; lia).
  revert i w Hf. induction k as [|k IH]; intros i w Hf Hi Hsize Hlim Hbad.
  { exists w. split; [apply frame_refl|reflexivity]. }
  destruct (foreach_step k i fd h off s DT_STRTAB strtab_body l w f Hf Hs Hoff Hi)
    as [w2 [Fr Heq]]; try lia; [intros j Hj; apply Hbad; lia|].
  rewrite Heq. cbn [ph_table find].
  destruct (dyn_tag h (map (f_byte f) (zrange (off + i * s) s)) =? DT_STRTAB).
  - exists w2. split; [exact Fr|reflexivity].
  - destruct (IH (i + 1) w2) as [w' [Fr' Heq']].
    + destruct Fr as [F _]. rewrite F. exact Hf.
    + lia.
    + lia.
    + lia.
    + intros j Hj. apply Hbad. lia.
    + exists w'. split; [exact (frame_trans _ _ _ Fr Fr')|].
      rewrite Heq'. replace (off + (i + 1) * s) with (off + i * s + s) by lia. reflexivity.
Qed.

(** add_xpaths_string, also telling that no allocation fails afterwards and
    that the other accumulator is left as it was. *)
Lemma add_xpaths_string_frame fuel fd offset c w f n :
  fd_file fd w = Some f ->
  0 <= offset < 2 ^ 31 -> 0 <= n -> offset + n < f_size f ->
  (forall i, offset <= i < f_size f -> f_bad f i = false) ->
  (forall i, offset <= i < offset + n -> f_byte f i <> 0) -> f_byte f (offset + n) = 0 ->
  (forall m, w_oom w m = false) ->
  n / 1024 < Z.of_nat fuel ->
  exists b w', add_xpaths fuel fd offset c w = Some (0, w')
    /\ get_cell w' c
       = Some (b, match get_cell w c with
                  | None => map (f_byte f) (zrange offset n)
                  | Some (_, old) => old ++ [58] ++ map (f_byte f) (zrange offset n)
                  end)
    /\ fd_file fd w' = Some f /\ (forall m, w_oom w' m = false)
    /\ (forall c', c' <> c -> get_cell w' c' = get_cell w c').
Proof.
  intros Hf Hoff Hn Hend Hbad Hnz Hz Hoom Hfuel.
  unfold add_xpaths. rewrite to_s64_small by lia.
  unfold fd_file in Hf. destruct (fd_lookup fd (w_fds w)) as [o|] eqn:Ho; [|discriminate].
  injection Hf as Hf.
  unfold sys_lseek at 1. rewrite Ho.
  replace (offset <? 0) with false by (symmetry; apply Z.ltb_ge; lia).
  replace (to_s32 offset <? 0) with false
    by (rewrite to_s32_small by lia; symmetry; apply Z.ltb_ge; lia).
  set (w1 := set_fds w (fd_set fd (mkOfd (o_file o) offset) (w_fds w))).
  destruct (xpaths_loop_string fuel fd f offset n 0 w1) as (paths & w2 & Hl & Hs & Hf2 & Hoom2).
  { unfold w1. cbn [w_fds set_fds]. rewrite fd_lookup_set, Hf, Z.add_0_r. reflexivity. }
  all: try lia; try assumption.
  { rewrite Z.sub_0_r. exact Hfuel. }
  change (map (f_byte f) (zrange offset 0)) with (@nil Z) in Hl. rewrite Hl.
  assert (Hall : forall c', get_cell w2 c' = get_cell w c').
  { intros c'. rewrite (xpaths_loop_cell _ _ _ _ _ _ _ c' Hl). destruct c'; reflexivity. }
  rewrite <- (Hall c). unfold talloc_try. rewrite Hoom2. cbn zeta.
  destruct (get_cell w2 c) as [[b0 old]|];
    eexists _, _; (split; [reflexivity|]); rewrite get_set_cell, Hs;
    (split; [reflexivity|]);
    (split; [unfold fd_file in *; destruct c; exact Hf2|]);
    (split; [intros m; destruct c; apply Hoom2|]);
    intros c' Hne; rewrite <- (Hall c'); destruct c, c'; first [reflexivity | congruence].
Qed.

Lemma dyn_val_nonneg h e : 0 <= dyn_val h e.
Proof. unfold dyn_val. destruct (IS_CLASS64 h); apply ufield_bounds. Qed.

(** A DT_RPATH or DT_RUNPATH scan over [k] readable entries appends, in
    order, the strings its entries name to the accumulator. *)
Lemma foreach_xpaths k i fd h off s type fuel so c strs w f :
  fd_file fd w = Some f -> (forall j, f_bad f j = false) -> (forall m, w_oom w m = false) ->
  dyn_size_ok h s -> 0 <= off -> 0 <= i -> 0 <= so ->
  off + (i + Z.of_nat k) * s <= f_size f -> off + (i + Z.of_nat k) * s < 2 ^ 31 ->
  Forall2 (str_at f fuel so) (dyn_values h type (ph_table f (off + i * s) s k)) strs ->
  exists w', foreach_dynamic_entry k i fd h off s type (xpath_body fuel fd so c) tt w
             = Some (FNext, tt, w')
    /\ fd_file fd w' = Some f /\ (forall m, w_oom w' m = false)
    /\ option_map snd (get_cell w' c) = joined (option_map snd (get_cell w c)) strs
    /\ (forall c', c' <> c -> get_cell w' c' = get_cell w c').
Proof.
  intros Hf Hbad Hoom Hs Hoff. assert (Hs' : s = 8 \/ s = 16) by (destruct Hs; lia).
  revert i w strs Hf Hoom. induction k as [|k IH]; intros i w strs Hf Hoom Hi Hso Hsize Hlim Hstr.
  { inversion Hstr; subst. exists w. repeat split; assumption || reflexivity. }
  destruct (foreach_step k i fd h off s type (xpath_body fuel fd so c) tt w f Hf Hs Hoff Hi)
    as [w2 [(F2 & C2 & O2) Heq]]; try lia; [intros; apply Hbad|].
  rewrite Heq. unfold dyn_values in Hstr. cbn [ph_table filter] in Hstr.
  set (e := map (f_byte f) (zrange (off + i * s) s)) in *.
  assert (Hf2 : fd_file fd w2 = Some f) by (rewrite F2; exact Hf).
  assert (Hoom2 : forall m, w_oom w2 m = false) by (rewrite O2; exact Hoom).
  replace (off + i * s + s) with (off + (i + 1) * s) in Hstr by lia.
  destruct (dyn_tag h e =? type).
  - inversion Hstr as [|v s1 vs strs' Hs1 Hrest]; subst.
    unfold str_at in Hs1. cbv zeta in Hs1.
    destruct Hs1 as (Hp & Hend & Hmap & Hnz & Hz & Hfuel).
    pose proof (dyn_val_nonneg h e).
    destruct (add_xpaths_string_frame fuel fd (so + dyn_val h e) c w2 f
                (Z.of_nat (List.length s1)) Hf2)
      as (b & w3 & Hadd & Hcell & Hf3 & Hoom3 & Hother); try lia; try assumption.
    { intros; apply Hbad. }
    { intros j Hj Hj0. apply Hnz. rewrite <- Hmap. apply in_map_iff. exists j.
      split; [exact Hj0|]. unfold zrange. apply in_map_iff.
      exists (Z.to_nat (j - (so + dyn_val h e))). split; [lia|]. apply in_seq. lia. }
    assert (Hb : xpath_body fuel fd so c tt (dyn_val h e) w2 = Some (FNext, tt, w3)).
    { unfold xpath_body, xpath_entry.
      replace (so <? 0) with false by (symmetry; apply Z.ltb_ge; lia).
      replace (UINT64_MAX - dyn_val h e <? so) with false
        by (symmetry; apply Z.ltb_ge; unfold UINT64_MAX, two64; lia).
      replace (to_u64 (so + dyn_val h e)) with (so + dyn_val h e)
        by (unfold to_u64, two64; rewrite Z.mod_small by lia; reflexivity).
      rewrite Hadd. reflexivity. }
    rewrite Hb.
    destruct (IH (i + 1) w3 strs' Hf3 Hoom3) as (w' & Hrun & Hf' & Hoom' & Hc' & Ho');
      try lia; [exact Hrest|].
    exists w'. split; [exact Hrun|split; [exact Hf'|split; [exact Hoom'|split]]].
    + rewrite Hc', Hcell, Hmap, C2. cbn [joined].
      destruct (get_cell w c) as [[b0 old]|]; reflexivity.
    + intros c' Hne. rewrite Ho', Hother by exact Hne. apply C2.
  - destruct (IH (i + 1) w2 strs Hf2 Hoom2) as (w' & Hrun & Hf' & Hoom' & Hc' & Ho');
      try lia; [exact Hstr|].
    exists w'. split; [exact Hrun|split; [exact Hf'|split; [exact Hoom'|split]]].
    + rewrite Hc', C2. reflexivity.
    + intros c' Hne. rewrite Ho' by exact Hne. apply C2.
Qed.

Lemma read_ldso_rpaths_paths fuel fd h w f e dstr ld rstrs ustrs :
  fd_file fd w = Some f ->
  (forall i, f_bad f i = false) -> (forall m, w_oom w m = false) ->
  (IS_CLASS32 h || IS_CLASS64 h) = true ->
  elf_phnum h < 65535 -> KNOWN_PHENTSIZE h (elf_phentsize h) = true ->
  elf_phoff h < 2 ^ 31 -> elf_phoff h + elf_phnum h * elf_phentsize h <= f_size f ->
  let table := ph_table f (elf_phoff h) (elf_phentsize h) (Z.to_nat (elf_phnum h)) in
  let s := if IS_CLASS32 h then sizeof_DynamicEntry32 else sizeof_DynamicEntry64 in
  find (ph_matches h PT_DYNAMIC WILDCARD) table = Some e ->
  ph_filesz h e mod s = 0 ->
  ph_offset h e + ph_filesz h e <= f_size f -> ph_offset h e + ph_filesz h e < 2 ^ 31 ->
  let ds := ph_table f (ph_offset h e) s (Z.to_nat (ph_filesz h e / s)) in
  find (fun d => dyn_tag h d =? DT_STRTAB) ds = Some dstr ->
  dyn_val h dstr <> WILDCARD ->
  find (ph_matches h PT_LOAD (dyn_val h dstr)) table = Some ld ->
  let so := to_s64 (ph_offset h ld + (dyn_val h dstr - ph_vaddr h ld)) in
  0 <= so ->
  Forall2 (str_at f fuel so) (dyn_values h DT_RPATH ds) rstrs ->
  Forall2 (str_at f fuel so) (dyn_values h DT_RUNPATH ds) ustrs ->
  exists w', read_ldso_rpaths fuel fd h w = Some (0, w')
    /\ option_map snd (w_rpaths w') = joined (option_map snd (w_rpaths w)) rstrs
    /\ option_map snd (w_runpaths w') = joined (option_map snd (w_runpaths w)) ustrs.
Proof.
  intros Hf Hbad Hoom Hcls Hnum Hk Hoff Hsize table s He Hmod Hend Hlim ds Hstr Hwild Hld so Hso
    Hr Hu.
  pose proof (elf_phoff_nonneg h). pose proof (elf_phnum_nonneg h).
  unfold read_ldso_rpaths.
  pose proof (frame_fresh sizeof_ProgramHeader w) as G1.
  destruct (fresh sizeof_ProgramHeader w) as [d0 w1]. cbn [snd] in G1.
  pose proof (frame_fresh sizeof_ProgramHeader w1) as G2.
  destruct (fresh sizeof_ProgramHeader w1) as [s0 w2]. cbn [snd] in G2.
  pose proof (frame_trans _ _ _ G1 G2) as G12.
  assert (Hlookup : forall v, frame w v ->
            exists o, fd_lookup fd (w_fds v) = Some o /\ o_file o = f).
  { intros v (Fv & _ & _). specialize (Fv fd). rewrite Hf in Fv. unfold fd_file in Fv.
    destruct (fd_lookup fd (w_fds v)) as [o|]; [|discriminate].
    exists o. split; [reflexivity|]. injection Fv as Fv. exact Fv. }
  destruct (Hlookup w2 G12) as (o2 & Ho2 & Hf2).
  assert (Hbad' : forall o' i, o_file o' = f -> f_bad (o_file o') i = false)
    by (intros o' i ->; apply Hbad).
  pose proof (find_program_header_scan fd h d0 PT_DYNAMIC WILDCARD w2 o2 Ho2 Hnum Hk Hoff
                ltac:(rewrite Hf2; exact Hsize) ltac:(intros; apply Hbad'; exact Hf2)) as Hscan.
  destruct (find_program_header fd h d0 PT_DYNAMIC WILDCARD w2) as [[st dyn] w3] eqn:E3.
  pose proof (frame_trans _ _ _ G12 (find_program_header_frame _ _ _ _ _ _ _ _ _ E3)) as G3.
  rewrite Hf2 in Hscan. fold table in Hscan. rewrite He in Hscan.
  destruct Hscan as [-> Hpre].
  apply find_some in He as [Hin _].
  pose proof (ph_table_length _ _ _ _ _ Hin) as Hlen.
  assert (Hke : KNOWN_PHENTSIZE h (Z.of_nat (List.length e)) = true)
    by (rewrite Hlen, Z2Nat.id by (destruct (known_phentsize_cases _ _ Hk); lia); exact Hk).
  rewrite <- Hlen in Hpre.
  destruct (ph_fields_of_prefix h e dyn Hke Hpre) as (Ho & Hs & _ & _).
  cbn [Z.leb Z.compare]. rewrite Ho, Hs.
  fold s. rewrite Hmod. cbn [Z.eqb negb].
  pose proof (ph_offset_nonneg h e). pose proof (ph_filesz_nonneg h e).
  assert (Hsv : dyn_size_ok h s).
  { unfold s, dyn_size_ok, sizeof_DynamicEntry32, sizeof_DynamicEntry64.
    unfold IS_CLASS32, IS_CLASS64 in *.
    destruct (ELF_CLASS h =? 1) eqn:E1, (ELF_CLASS h =? 2) eqn:E2; cbn in Hcls |- *;
      try discriminate; [|left; split; reflexivity|right; split; reflexivity].
    apply Z.eqb_eq in E1, E2. lia. }
  assert (Hs0 : 0 < s) by (destruct Hsv; lia).
  assert (Hex : ph_filesz h e = s * (ph_filesz h e / s)) by (apply Z.div_exact; lia).
  assert (Hq : 0 <= ph_filesz h e / s) by (apply Z.div_pos; lia).
  assert (Hf3 : fd_file fd w3 = Some f) by (destruct G3 as [F _]; rewrite F; exact Hf).
  unfold ds in *. set (q := ph_filesz h e / s) in *.
  set (off := ph_offset h e) in *.
  assert (Hrange : off + (0 + Z.of_nat (Z.to_nat q)) * s <= f_size f
                   /\ off + (0 + Z.of_nat (Z.to_nat q)) * s < 2 ^ 31)
    by (rewrite Z2Nat.id by exact Hq; lia).
  destruct Hrange as [Hr1 Hr2].
  destruct (foreach_strtab (Z.to_nat q) 0 fd h off s WILDCARD w3 f Hf3 Hsv) as [w4 [G4 Hrun4]];
    try lia; [intros; apply Hbad|].
  rewrite Z.mul_0_l, Z.add_0_r, Hstr in Hrun4. rewrite Hrun4.
  replace (dyn_val h dstr =? WILDCARD) with false by (symmetry; apply Z.eqb_neq; exact Hwild).
  pose proof (frame_trans _ _ _ G3 G4) as G34.
  destruct (Hlookup w4 G34) as (o4 & Ho4 & Hf4).
  pose proof (find_program_header_scan fd h s0 PT_LOAD (dyn_val h dstr) w4 o4 Ho4 Hnum Hk Hoff
                ltac:(rewrite Hf4; exact Hsize) ltac:(intros; apply Hbad'; exact Hf4)) as Hscan.
  destruct (find_program_header fd h s0 PT_LOAD (dyn_val h dstr) w4) as [[st5 ss] w5] eqn:E5.
  pose proof (frame_trans _ _ _ G34 (find_program_header_frame _ _ _ _ _ _ _ _ _ E5)) as G5.
  rewrite Hf4 in Hscan. fold table in Hscan. rewrite Hld in Hscan.
  destruct Hscan as [-> Hpre5].
  apply find_some in Hld as [Hin5 _].
  pose proof (ph_table_length _ _ _ _ _ Hin5) as Hlen5.
  assert (Hke5 : KNOWN_PHENTSIZE h (Z.of_nat (List.length ld)) = true)
    by (rewrite Hlen5, Z2Nat.id by (destruct (known_phentsize_cases _ _ Hk); lia); exact Hk).
  rewrite <- Hlen5 in Hpre5.
  destruct (ph_fields_of_prefix h ld ss Hke5 Hpre5) as (Ho5 & _ & Hv5 & _).
  cbn [Z.ltb Z.compare]. rewrite Ho5, Hv5. fold so.
  destruct G5 as (F5 & C5 & O5).
  assert (Hf5 : fd_file fd w5 = Some f) by (rewrite F5; exact Hf).
  assert (Hoom5 : forall m, w_oom w5 m = false) by (rewrite O5; exact Hoom).
  destruct (foreach_xpaths (Z.to_nat q) 0 fd h off s DT_RPATH fuel so Rpaths rstrs w5 f
              Hf5 Hbad Hoom5 Hsv) as (w6 & Hrun6 & Hf6 & Hoom6 & Hc6 & Ho6); try lia.
  { rewrite Z.mul_0_l, Z.add_0_r. exact Hr. }
  rewrite Hrun6.
  destruct (foreach_xpaths (Z.to_nat q) 0 fd h off s DT_RUNPATH fuel so Runpaths ustrs w6 f
              Hf6 Hbad Hoom6 Hsv) as (w7 & Hrun7 & Hf7 & Hoom7 & Hc7 & Ho7); try lia.
  { rewrite Z.mul_0_l, Z.add_0_r. exact Hu. }
  rewrite Hrun7.
  exists w7. split; [reflexivity|split].
  - change (w_rpaths w7) with (get_cell w7 Rpaths).
    rewrite Ho7 by discriminate. change (w_rpaths w) with (get_cell w Rpaths).
    rewrite Hc6, C5. reflexivity.
  - change (w_runpaths w7) with (get_cell w7 Runpaths).
    change (w_runpaths w) with (get_cell w Runpaths).
    rewrite Hc7, Ho6 by discriminate. rewrite C5. reflexivity.
Qed.

(** Appending strings never cuts what the accumulator already holds. *)
Lemma joined_prefix strs old : exists rest, joined (Some old) strs = Some (old ++ rest).
Proof.
  revert old. induction strs as [|t r IH]; intros old; cbn [joined].
  - exists []. rewrite app_nil_r. reflexivity.
  - destruct (IH (old ++ [58] ++ t)) as [rest Hr]. exists ([58] ++ t ++ rest).
    rewrite Hr, <- !app_assoc. reflexivity.
Qed.

(** C7 (amended): add_xpaths merges the text it reads at [offset] (the
    bytes of the file up to the next NUL): the text becomes the whole
    accumulator when the accumulator is NULL, and otherwise follows the old
    contents and a ':', also when those contents are the empty string. In
    read_ldso_rpaths every DT_RPATH and DT_RUNPATH entry of the dynamic
    table is merged in this way, in table order, so the old contents stay a
    prefix, and an image whose only DT_RUNPATH entries name "/usr/lib" and
    then "/lib" turns a NULL runpaths into "/usr/lib:/lib" (the file being
    readable, no allocation failing, the strings below 2 GiB). *)
Theorem add_xpaths_merge :
  (forall fuel fd offset c w f n,
     fd_file fd w = Some f ->
     0 <= offset < 2 ^ 31 -> 0 <= n -> offset + n < f_size f ->
     (forall i, offset <= i < f_size f -> f_bad f i = false) ->
     (forall i, offset <= i < offset + n -> f_byte f i <> 0) -> f_byte f (offset + n) = 0 ->
     (forall m, w_oom w m = false) ->
     n / 1024 < Z.of_nat fuel ->
     exists b w', add_xpaths fuel fd offset c w = Some (0, w')
       /\ get_cell w' c
          = Some (b, match get_cell w c with
                     | None => map (f_byte f) (zrange offset n)
                     | Some (_, old) => old ++ [58] ++ map (f_byte f) (zrange offset n)
                     end))
  /\ (forall fuel fd h w f e dstr ld rstrs ustrs,
     fd_file fd w = Some f ->
     (forall i, f_bad f i = false) -> (forall m, w_oom w m = false) ->
     (IS_CLASS32 h || IS_CLASS64 h) = true ->
     elf_phnum h < 65535 -> KNOWN_PHENTSIZE h (elf_phentsize h) = true ->
     elf_phoff h < 2 ^ 31 -> elf_phoff h + elf_phnum h * elf_phentsize h <= f_size f ->
     let table := ph_table f (elf_phoff h) (elf_phentsize h) (Z.to_nat (elf_phnum h)) in
     let s := if IS_CLASS32 h then sizeof_DynamicEntry32 else sizeof_DynamicEntry64 in
     find (ph_matches h PT_DYNAMIC WILDCARD) table = Some e ->
     ph_filesz h e mod s = 0 ->
     ph_offset h e + ph_filesz h e <= f_size f -> ph_offset h e + ph_filesz h e < 2 ^ 31 ->
     let ds := ph_table f (ph_offset h e) s (Z.to_nat (ph_filesz h e / s)) in
     find (fun d => dyn_tag h d =? DT_STRTAB) ds = Some dstr ->
     dyn_val h dstr <> WILDCARD ->
     find (ph_matches h PT_LOAD (dyn_val h dstr)) table = Some ld ->
     let so := to_s64 (ph_offset h ld + (dyn_val h dstr - ph_vaddr h ld)) in
     0 <= so ->
     Forall2 (str_at f fuel so) (dyn_values h DT_RPATH ds) rstrs ->
     Forall2 (str_at f fuel so) (dyn_values h DT_RUNPATH ds) ustrs ->
     exists w', read_ldso_rpaths fuel fd h w = Some (0, w')
       /\ option_map snd (w_rpaths w') = joined (option_map snd (w_rpaths w)) rstrs
       /\ option_map snd (w_runpaths w') = joined (option_map snd (w_runpaths w)) ustrs
       /\ (forall old, option_map snd (w_rpaths w) = Some old ->
             exists rest, option_map snd (w_rpaths w') = Some (old ++ rest))
       /\ (forall old, option_map snd (w_runpaths w) = Some old ->
             exists rest, option_map snd (w_runpaths w') = Some (old ++ rest))
       /\ (w_runpaths w = None ->
           ustrs = [bytes_of_string "/usr/lib"; bytes_of_string "/lib"] ->
           option_map snd (w_runpaths w') = Some (bytes_of_string "/usr/lib:/lib"))).
Proof.
  split.
  - intros fuel fd offset c w f n Hf Hoff Hn Hend Hbad Hnz Hz Hoom Hfuel.
    destruct (add_xpaths_string fuel fd offset c w f n Hf Hoff Hn Hend Hbad Hnz Hz Hoom Hfuel)
      as (b & w' & H1 & H2 & _).
    exists b, w'. split; assumption.
  - intros fuel fd h w f e dstr ld rstrs ustrs Hf Hbad Hoom Hcls Hnum Hk Hoff Hsize table s
      He Hmod Hend Hlim ds Hstr Hwild Hld so Hso Hr Hu.
    destruct (read_ldso_rpaths_paths fuel fd h w f e dstr ld rstrs ustrs Hf Hbad Hoom Hcls
                Hnum Hk Hoff Hsize He Hmod Hend Hlim Hstr Hwild Hld Hso Hr Hu)
      as (w' & Hrun & Hrp & Hup).
    exists w'. split; [exact Hrun|]. split; [exact Hrp|]. split; [exact Hup|].
    split; [|split].
    + intros old Ho. rewrite Hrp, Ho. apply joined_prefix.
    + intros old Ho. rewrite Hup, Ho. apply joined_prefix.
    + intros Hn ->. rewrite Hup, Hn. reflexivity.
Qed.

Lemma add_xpaths_merge_witness :
  (exists b w', add_xpaths 8 3 512 Runpaths (world_of_image runpath_image) = Some (0, w')
     /\ get_cell w' Runpaths = Some (b, bytes_of_string "/usr/lib"))
  /\ (exists w', read_ldso_rpaths 8 3 (header_of runpath_image) (world_of_image runpath_image)
                 = Some (0, w')
       /\ option_map snd (w_runpaths w') = Some (bytes_of_string "/usr/lib:/lib")).
Proof.
  destruct add_xpaths_merge as [Ha Hb]. split.
  - destruct (Ha 8%nat 3 512 Runpaths (world_of_image runpath_image)
                (file_of_list runpath_image) 8 eq_refl ltac:(lia) ltac:(lia)
                ltac:(vm_compute; reflexivity) ltac:(intros; reflexivity))
      as (b & w' & H1 & H2).
    + intros i Hi.
      assert (Hr : i = 512 \/ i = 513 \/ i = 514 \/ i = 515 \/ i = 516 \/ i = 517
                   \/ i = 518 \/ i = 519) by lia.
      repeat (destruct Hr as [->|Hr]; [vm_compute; discriminate|]).
      subst i. vm_compute. discriminate.
    + vm_compute. reflexivity.
    + intros m. reflexivity.
    + vm_compute. reflexivity.
    + exists b, w'. split; [exact H1|]. rewrite H2. vm_compute. reflexivity.
  - destruct (Hb 8%nat 3 (header_of runpath_image) (world_of_image runpath_image)
           (file_of_list runpath_image) (phdr64 PT_DYNAMIC 256 256 64 64)
           (dyn64 DT_STRTAB 512) (phdr64 PT_LOAD 0 0 526 526)
           [] [bytes_of_string "/usr/lib"; bytes_of_string "/lib"])
      as (w' & H1 & _ & _ & _ & _ & H6).
    all: lazymatch goal with
         | |- Forall2 _ _ _ => idtac
         | |- exists _, _ => idtac
         | _ => first [ intros; vm_compute; reflexivity | vm_compute; intros H; discriminate H ]
         end.
    + match goal with |- Forall2 _ ?l _ => let l' := eval vm_compute in l in change l with l' end.
      exact (Forall2_nil _).
    + match goal with |- Forall2 _ ?l _ => let l' := eval vm_compute in l in change l with l' end.
      apply Forall2_cons; [|apply Forall2_cons; [|exact (Forall2_nil _)]];
        unfold str_at; cbv zeta; repeat split;
        try (vm_compute; reflexivity);
        intros Hin; vm_compute in Hin;
        repeat (destruct Hin as [Hin|Hin]; [discriminate Hin|]); exact Hin.
    + exists w'. split; [exact H1|]. exact (H6 eq_refl eq_refl).
Defined.

(** X7: on an image whose string table is found (a PT_DYNAMIC entry whose
    segment is a whole number of readable dynamic entries, a DT_STRTAB entry
    among them, and a PT_LOAD segment holding its address), read_ldso_rpaths
    returns 0 and appends to rpaths the strings named by the DT_RPATH
    entries, and to runpaths those named by the DT_RUNPATH entries, in the
    order of the entries, separated by ':' (the file being readable, no
    allocation failing, and each string inside the file below 2 GiB). *)
Theorem read_ldso_rpaths_strings fuel fd h w f e dstr ld rstrs ustrs :
  fd_file fd w = Some f ->
  (forall i, f_bad f i = false) -> (forall m, w_oom w m = false) ->
  (IS_CLASS32 h || IS_CLASS64 h) = true ->
  elf_phnum h < 65535 -> KNOWN_PHENTSIZE h (elf_phentsize h) = true ->
  elf_phoff h < 2 ^ 31 -> elf_phoff h + elf_phnum h * elf_phentsize h <= f_size f ->
  let table := ph_table f (elf_phoff h) (elf_phentsize h) (Z.to_nat (elf_phnum h)) in
  let s := if IS_CLASS32 h then sizeof_DynamicEntry32 else sizeof_DynamicEntry64 in
  find (ph_matches h PT_DYNAMIC WILDCARD) table = Some e ->
  ph_filesz h e mod s = 0 ->
  ph_offset h e + ph_filesz h e <= f_size f -> ph_offset h e + ph_filesz h e < 2 ^ 31 ->
  let ds := ph_table f (ph_offset h e) s (Z.to_nat (ph_filesz h e / s)) in
  find (fun d => dyn_tag h d =? DT_STRTAB) ds = Some dstr ->
  dyn_val h dstr <> WILDCARD ->
  find (ph_matches h PT_LOAD (dyn_val h dstr)) table = Some ld ->
  let so := to_s64 (ph_offset h ld + (dyn_val h dstr - ph_vaddr h ld)) in
  0 <= so ->
  Forall2 (str_at f fuel so) (dyn_values h DT_RPATH ds) rstrs ->
  Forall2 (str_at f fuel so) (dyn_values h DT_RUNPATH ds) ustrs ->
  exists w', read_ldso_rpaths fuel fd h w = Some (0, w')
    /\ option_map snd (w_rpaths w') = joined (option_map snd (w_rpaths w)) rstrs
    /\ option_map snd (w_runpaths w') = joined (option_map snd (w_runpaths w)) ustrs.
Proof. exact (read_ldso_rpaths_paths fuel fd h w f e dstr ld rstrs ustrs). Qed.

Lemma read_ldso_rpaths_strings_witness :
  exists w', read_ldso_rpaths 8 3 (header_of runpath_image) (world_of_image runpath_image)
             = Some (0, w')
    /\ option_map snd (w_rpaths w') = None
    /\ option_map snd (w_runpaths w') = Some (bytes_of_string "/usr/lib:/lib").
Proof.
  apply (read_ldso_rpaths_strings 8 3 (header_of runpath_image) (world_of_image runpath_image)
           (file_of_list runpath_image) (phdr64 PT_DYNAMIC 256 256 64 64)
           (dyn64 DT_STRTAB 512) (phdr64 PT_LOAD 0 0 526 526)
           [] [bytes_of_string "/usr/lib"; bytes_of_string "/lib"]).
  all: lazymatch goal with
       | |- Forall2 _ _ _ => idtac
       | _ => first [ intros; vm_compute; reflexivity | vm_compute; intros H; discriminate H ]
       end.
  - match goal with |- Forall2 _ ?l _ => let l' := eval vm_compute in l in change l with l' end.
    exact (Forall2_nil _).
  - match goal with |- Forall2 _ ?l _ => let l' := eval vm_compute in l in change l with l' end.
    apply Forall2_cons; [|apply Forall2_cons; [|exact (Forall2_nil _)]];
      unfold str_at; cbv zeta; repeat split;
      try (vm_compute; reflexivity);
      intros Hin; vm_compute in Hin;
      repeat (destruct Hin as [Hin|Hin]; [discriminate Hin|]); exact Hin.
Defined.
